(** * Unified stumpage dataset: the integration scripts

    A shallow embedding of the four integration scripts of the repository

      - scripts/integrate_mn_forest_resources.py   (module [MN])
      - scripts/integrate_wv_forestry.py           (module [WV])
      - scripts/integrate_ca_cdtfa.py              (module [CA])
      - scripts/integrate_usfs_pnw_species.py      (module [USFS_PNW])

    Each script reads a parsed per-source CSV, turns its rows into rows of
    the unified schema ([transform_to_unified]), drops duplicates, reads the
    unified dataset, removes the rows it is about to replace, appends the
    new ones, sorts and rewrites the whole file ([main]).

    Conventions of the embedding.
      - A DataFrame is the list of its rows, in index order.
      - A float is an IEEE 754 binary64 number ([PyNum.float]): division is
        the correctly rounded division of the standard, [round(_, 2)] is
        Python's.  The missing value (NaN / None) of a nullable cell is
        [None]; a NaN inside [Some] counts as missing too.
      - A label cell of a parsed file on which the loop calls a string
        operation is an optional string: [None] is the empty cell, which
        pandas reads as NaN and on which the operation raises.  The other
        label cells, and the [source] column, are strings, [year] is an
        integer: these are the column types of the unified schema.
      - The cells a script prints into [notes] carry the type of their
        column ([Pandas.whole]): a column of whole numbers is read as
        integers, and as floats when one of its cells is empty.
      - Strings are sequences of ASCII characters, on which [str.lower] is
        the lower-casing of the letters A to Z.
      - Exceptions are values of [exn]; a script that raises stops there.
      - The two CSV files a script touches are the fields of [World]; writing
        a frame and reading it back gives the same rows.  A run is followed
        up to its [to_csv] call; what a script prints afterwards is not
        part of the embedding. *)

From Stdlib Require Import ZArith QArith String Ascii List Permutation Lia.
From Stdlib Require Import OrdersEx Sorted SpecFloat.
From stdpp Require Import base list strings gmap pretty.

Local Open Scope string_scope.
Local Open Scope list_scope.

(** ** Python string operations used by the scripts *)

Module PyStr.

(** [c.lower()] for one byte. *)
Definition lower_ascii (c : ascii) : ascii :=
  let n := N_of_ascii c in
  if ((65 <=? n) && (n <=? 90))%N then ascii_of_N (n + 32) else c.

Fixpoint map_chars (f : ascii -> ascii) (s : string) : string :=
  match s with
  | EmptyString => EmptyString
  | String c s' => String (f c) (map_chars f s')
  end.

(** [s.lower()] *)
Definition lower (s : string) : string := map_chars lower_ascii s.

(** [s.replace(old, new)] for one-character [old] and [new]. *)
Definition replace (old new : ascii) (s : string) : string :=
  map_chars (fun c => if Ascii.eqb c old then new else c) s.

(** [needle in s], also [Series.str.contains(needle)] for a needle
    without regular-expression metacharacters. *)
Fixpoint contains (needle s : string) : bool :=
  if String.prefix needle s then true
  else match s with
       | EmptyString => false
       | String _ s' => contains needle s'
       end.

(** [str(n)] / [f"{n}"] for an integer. *)
Definition of_int (n : Z) : string := pretty n.

(** The whitespace characters of [str.isspace] in ASCII. *)
Definition is_space (c : ascii) : bool :=
  let n := N_of_ascii c in
  ((n =? 32) || ((9 <=? n) && (n <=? 13)) || ((28 <=? n) && (n <=? 31)))%N.

End PyStr.

(** ** Numbers *)

Module PyNum.

(** A Python float: a binary64 number, in the representation of the
    standard library's specification of IEEE 754 arithmetic (53 bits of
    precision, exponents below 1024). *)
Definition float : Type := spec_float.

Definition prec : Z := 53.
Definition emax : Z := 1024.

(** The float a decimal literal denotes: the binary64 number nearest to the
    rational, ties to even. *)
Definition nearest (q : Q) : float :=
  match Qnum q with
  | Z0 => S754_zero false
  | Zpos n =>
      SFdiv prec emax (S754_finite false n 0) (S754_finite false (Qden q) 0)
  | Zneg n =>
      SFdiv prec emax (S754_finite true n 0) (S754_finite false (Qden q) 0)
  end.

(** [x / y] for a divisor that is not zero (the scripts divide by their
    conversion constants only). *)
Definition div (x y : float) : float := SFdiv prec emax x y.

(** Nearest integer, ties to even. *)
Definition round_half_even (q : Q) : Z :=
  let n := Qnum q in
  let d := Zpos (Qden q) in
  let fl := (n / d)%Z in
  let rem := (n mod d)%Z in
  match (2 * rem ?= d)%Z with
  | Lt => fl
  | Gt => (fl + 1)%Z
  | Eq => if Z.even fl then fl else (fl + 1)%Z
  end.

(** The exact value [m * 2^e] of the magnitude of a finite float. *)
Definition magnitude (m : positive) (e : Z) : Q :=
  match e with
  | Z0 => Zpos m # 1
  | Zpos k => Zpos (Pos.shiftl m (Npos k)) # 1
  | Zneg k => Zpos m # Pos.shiftl 1 (Npos k)
  end.

(** [round(x, 2)]: the exact value of [x] is rounded to two decimals, ties
    to even, and the result is the float nearest to that decimal; a result
    of zero keeps the sign of [x], infinities and NaN are returned as they
    are. *)
Definition round2 (x : float) : float :=
  match x with
  | S754_finite s m e =>
      match round_half_even (magnitude m e * 100) with
      | Zpos cents =>
          SFdiv prec emax (S754_finite s cents 0) (S754_finite false 100 0)
      | _ => S754_zero s
      end
  | _ => x
  end.

(** [pd.isna(x)] for a float. *)
Definition is_nan (x : float) : bool :=
  match x with
  | S754_nan => true
  | _ => false
  end.

(** The integer [0] a price is compared with. *)
Definition zero : float := S754_zero false.

(** [x == 0], [0 < x], [x < 0] and [x <= 0]; every comparison with NaN is
    false. *)
Definition is_zero (x : float) : bool := SFeqb x zero.
Definition is_positive (x : float) : bool := SFltb zero x.
Definition is_negative (x : float) : bool := SFltb x zero.
Definition is_nonpositive (x : float) : bool := SFleb x zero.

(** [x <= y] *)
Definition leb (x y : float) : bool := SFleb x y.

(** Truthiness of a float: [if x]. *)
Definition truthy (x : float) : bool := negb (is_zero x).

End PyNum.

Arguments PyNum.nearest : simpl never.
Arguments PyNum.div : simpl never.
Arguments PyNum.round2 : simpl never.
Arguments PyNum.is_zero : simpl never.

(** ** The unified schema *)

(** One row of [data/processed/stumpage_unified.csv]; the dict literal
    built by every [transform_to_unified]. *)
Record CanonicalRecord := {
  source : string;
  year : Z;
  quarter : option Z;
  period_type : string;
  region : string;
  county : option string;
  species : string;
  product_type : string;
  price_avg : PyNum.float;
  price_low : option PyNum.float;
  price_high : option PyNum.float;
  unit_ : string;
  price_per_ton : option PyNum.float;
  conversion_factor : option PyNum.float;
  sample_size : option PyNum.float;
  notes : option string
}.

(** The composite key of the specification. *)
Definition composite_key (r : CanonicalRecord)
  : string * Z * option Z * string * string * string :=
  (source r, year r, quarter r, species r, region r, product_type r).

(** ** Exceptions *)

Inductive exn :=
| ValueError      (* int(nan) *)
| KeyError        (* a column of a frame without columns *)
| AttributeError  (* a string method on NaN, .str on a column without text *)
| TypeError       (* 'west' in nan *)
| ReadError.      (* pd.read_csv on a file that cannot be read *)

Inductive outcome (A : Type) :=
| Done (a : A)
| Raised (e : exn).
Arguments Done {A} a.
Arguments Raised {A} e.

#[export] Instance outcome_ret : MRet outcome := fun A a => Done a.

#[export] Instance outcome_bind : MBind outcome :=
  fun A B k o =>
    match o with
    | Done a => k a
    | Raised e => Raised e
    end.

(** ** pandas operations used by the scripts *)

Module Pandas.

(** [df.drop_duplicates(subset=..., keep='last')]: a row stays when no
    later row has the same values in the subset columns; order is kept. *)
Fixpoint drop_duplicates_last {A K : Type} `{EqDecision K}
    (subset : A -> K) (df : list A) : list A :=
  match df with
  | [] => []
  | r :: rest =>
      if decide (subset r ∈ subset <$> rest)
      then drop_duplicates_last subset rest
      else r :: drop_duplicates_last subset rest
  end.

(** Ascending order on a nullable integer column with [na_position='last']. *)
Definition na_last_leb (a b : option Z) : bool :=
  match a, b with
  | Some x, Some y => (x <=? y)%Z
  | Some _, None => true
  | None, Some _ => false
  | None, None => true
  end.

(** Row order of [sort_values(['source', 'year', 'quarter'])]. *)
Definition sort_key_leb (r1 r2 : CanonicalRecord) : bool :=
  match String_as_OT.compare (source r1) (source r2) with
  | Lt => true
  | Gt => false
  | Eq =>
      match (year r1 ?= year r2)%Z with
      | Lt => true
      | Gt => false
      | Eq => na_last_leb (quarter r1) (quarter r2)
      end
  end.

(** Sorting on several columns is a stable sort (rows with equal keys
    keep their order): insertion from the right, each row placed before
    the first row that is not smaller. *)
Fixpoint insert_row {A : Type} (leb : A -> A -> bool) (x : A) (l : list A)
  : list A :=
  match l with
  | [] => [x]
  | y :: l' => if leb x y then x :: y :: l' else y :: insert_row leb x l'
  end.

Definition stable_sort {A : Type} (leb : A -> A -> bool) (l : list A)
  : list A :=
  foldr (insert_row leb) [] l.

(** [df.sort_values(['source', 'year', 'quarter'], na_position='last')] *)
Definition sort_values (df : list CanonicalRecord) : list CanonicalRecord :=
  stable_sort sort_key_leb df.

(** A cell of a column of whole numbers as [read_csv] delivers it: an
    integer when no cell of the column is empty, and otherwise a float
    that holds the same whole number, or NaN where the cell is empty
    ([float64 None]).  The numbers are years, halves and the like: far
    below 2^53, so that the float holds them exactly and prints them in
    positional notation. *)
Inductive whole :=
| int64 (n : Z)
| float64 (x : option Z).

(** The number in the cell, if there is one. *)
Definition whole_value (cell : whole) : option Z :=
  match cell with
  | int64 n => Some n
  | float64 x => x
  end.

(** [f"{cell}"]: a float prints with its fractional part. *)
Definition whole_text (cell : whole) : string :=
  match cell with
  | int64 n => PyStr.of_int n
  | float64 (Some n) => PyStr.of_int n +:+ ".0"
  | float64 None => "nan"
  end.

(** [column.str]: a column read from a CSV file has the accessor when it
    holds text; a column whose cells are all empty is read as a float
    column, on which [.str] raises [AttributeError].  The columns of a
    frame without rows are object columns and have it. *)
Definition str_accessor (column : list (option string)) : outcome unit :=
  match column with
  | [] => Done tt
  | _ :: _ =>
      if existsb (fun cell => bool_decide (is_Some cell)) column
      then Done tt
      else Raised AttributeError
  end.

End Pandas.

(** ** Files and the script monad *)

(** The files of one run: the parsed per-source CSV, the unified dataset
    ([None]: the file cannot be read), and the frames passed to
    [to_csv(UNIFIED_PATH)] so far, oldest first. *)
Record World (Raw : Type) := {
  raw_csv : option (list Raw);
  unified_csv : option (list CanonicalRecord);
  to_csv_log : list (list CanonicalRecord)
}.
Arguments raw_csv {Raw} w.
Arguments unified_csv {Raw} w.
Arguments to_csv_log {Raw} w.

Definition Script (Raw A : Type) : Type := World Raw -> outcome A * World Raw.

#[export] Instance script_ret {Raw} : MRet (Script Raw) :=
  fun A a w => (Done a, w).

#[export] Instance script_bind {Raw} : MBind (Script Raw) :=
  fun A B k m w =>
    match m w with
    | (Done a, w') => k a w'
    | (Raised e, w') => (Raised e, w')
    end.

Definition raise {Raw A} (e : exn) : Script Raw A := fun w => (Raised e, w).

Definition lift {Raw A} (o : outcome A) : Script Raw A := fun w => (o, w).

(** [pd.read_csv(RAW_DIR / ...)] *)
Definition read_raw_csv {Raw} : Script Raw (list Raw) :=
  fun w => match raw_csv w with
           | Some df => (Done df, w)
           | None => (Raised ReadError, w)
           end.

(** [pd.read_csv(UNIFIED_PATH)] *)
Definition read_unified_csv {Raw} : Script Raw (list CanonicalRecord) :=
  fun w => match unified_csv w with
           | Some df => (Done df, w)
           | None => (Raised ReadError, w)
           end.

(** [df.to_csv(UNIFIED_PATH, index=False)] *)
Definition to_csv {Raw} (df : list CanonicalRecord) : Script Raw unit :=
  fun w => (Done tt, {| raw_csv := raw_csv w;
                        unified_csv := Some df;
                        to_csv_log := to_csv_log w ++ [df] |}).

(** [show_summary(df, title)]: prints; [df['year']] raises [KeyError] on
    the frame without columns that [pd.DataFrame([])] is. *)
Definition show_summary {Raw} (df : list CanonicalRecord) : Script Raw unit :=
  match df with
  | [] => raise KeyError
  | _ :: _ => mret tt
  end.

(** [int(x)] on a cell that may be NaN. *)
Definition py_int (x : option Z) : outcome Z :=
  match x with
  | Some n => Done n
  | None => Raised ValueError
  end.

(** A label cell used as a string: on the NaN of an empty cell the
    operation raises -- [AttributeError] for a method call such as
    [x.lower()], [TypeError] for ['west' in x]. *)
Definition py_str (e : exn) (x : option string) : outcome string :=
  match x with
  | Some s => Done s
  | None => Raised e
  end.

(** The loop [for _, row in df.iterrows(): ...] of every
    [transform_to_unified]: [assemble] is the loop body, which skips the row
    ([continue], [Done None]), appends a record to [rows] or raises. *)
Fixpoint iterrows {Raw : Type}
    (assemble : Raw -> outcome (option CanonicalRecord))
    (df : list Raw) (rows : list CanonicalRecord)
  : outcome (list CanonicalRecord) :=
  match df with
  | [] => Done rows
  | row :: df' =>
      match assemble row with
      | Raised e => Raised e
      | Done None => iterrows assemble df' rows
      | Done (Some rec) => iterrows assemble df' (rows ++ [rec])
      end
  end.

(** [round(price_per_ton, 2) if price_per_ton else None] *)
Definition round_if_truthy (price_per_ton : option PyNum.float)
  : option PyNum.float :=
  match price_per_ton with
  | Some p => if PyNum.truthy p then Some (PyNum.round2 p) else None
  | None => None
  end.

(** ** scripts/integrate_mn_forest_resources.py *)

Module MN.

(** A row of [mn_stumpage_forest_resources.csv]. *)
Record RawRow := {
  raw_year : option Z;
  raw_species : string;
  raw_product_type : string;
  raw_price : option PyNum.float;
  raw_unit : string
}.

Definition PRODUCT_MAP : gmap string string :=
  list_to_map [
    ("pulpwood", "cordwood");
    ("pulp_bolts", "cordwood");
    ("sawtimber", "sawtimber");
    ("cord", "cordwood");
    ("mbf", "sawtimber")
  ].

Definition CORD_TO_TONS : PyNum.float := PyNum.nearest 2.3.
Definition MBF_TO_TONS : PyNum.float := PyNum.nearest 4.

(** The conversion chosen by the [if unit == ...] chain. *)
Definition conversion_for (unit : string) : option PyNum.float :=
  if String.eqb unit "$/cord" then Some CORD_TO_TONS
  else if String.eqb unit "$/MBF" then Some MBF_TO_TONS
  else None.

(** The body of the loop of [transform_to_unified]. *)
Definition assemble (row : RawRow) : outcome (option CanonicalRecord) :=
  match raw_price row with
  | None => Done None
  | Some price =>
      if PyNum.is_nan price || PyNum.is_zero price then Done None
      else
        year ← py_int (raw_year row);
        let species := raw_species row in
        let product := raw_product_type row in
        let unit := raw_unit row in
        let product_std := default product (PRODUCT_MAP !! product) in
        let conversion := conversion_for unit in
        let price_per_ton := PyNum.div price <$> conversion in
        let notes :=
          if String.eqb product "pulp_bolts"
          then "MN Forest Resources Report. Pulp and bolts combined price."
          else "MN Forest Resources Report. Public agencies stumpage." in
        Done (Some {|
          source := "MN";
          year := year;
          quarter := None;
          period_type := "annual";
          region := "Statewide";
          county := None;
          species := species;
          product_type := product_std;
          price_avg := price;
          price_low := None;
          price_high := None;
          unit_ := unit;
          price_per_ton := round_if_truthy price_per_ton;
          conversion_factor := conversion;
          sample_size := None;
          notes := Some notes
        |})
  end.

Definition transform_to_unified (df : list RawRow)
  : outcome (list CanonicalRecord) :=
  iterrows assemble df [].

Definition load_forest_resources_data : Script RawRow (list RawRow) :=
  read_raw_csv.

(** The columns of [drop_duplicates(subset=[...])]. *)
Definition subset (r : CanonicalRecord) : string * Z * string * string :=
  (source r, year r, species r, product_type r).

(** Rows of the existing dataset removed before the append:
    [(existing_df['source'] == 'MN') & (existing_df['year'] >= 2013)]. *)
Definition replaced (r : CanonicalRecord) : Prop :=
  source r = "MN" ∧ (2013 ≤ year r)%Z.

Definition main : Script RawRow unit :=
  fr_df ← load_forest_resources_data;
  mn_unified ← lift (transform_to_unified fr_df);
  let mn_unified := Pandas.drop_duplicates_last subset mn_unified in
  _ ← show_summary mn_unified;
  existing_df ← read_unified_csv;
  let existing_df := filter (fun r => ¬ replaced r) existing_df in
  let unified_df := Pandas.sort_values (existing_df ++ mn_unified) in
  to_csv unified_df.

End MN.

(** ** scripts/integrate_wv_forestry.py *)

Module WV.

(** A row of [wv_stumpage_parsed.csv]. *)
Record RawRow := {
  raw_year : option Z;
  raw_region : string;
  raw_species : option string;
  raw_product_type : option string;
  raw_price_avg : option PyNum.float;
  raw_price_low : option PyNum.float;
  raw_price_high : option PyNum.float;
  raw_unit : string;
  raw_num_reports : option PyNum.float
}.

Definition SPECIES_MAP : gmap string string :=
  list_to_map [
    ("Walnut", "black_walnut");
    ("White Oak", "white_oak");
    ("Red Oak", "red_oak");
    ("Other Oak", "other_oak");
    ("Cherry", "black_cherry");
    ("Hard Maple", "hard_maple");
    ("Soft Maple", "soft_maple");
    ("Ash", "ash");
    ("Yellow Poplar", "yellow_poplar");
    ("Basswood", "basswood");
    ("Hickory", "hickory");
    ("White Pine", "white_pine");
    ("Other Pine", "other_pine");
    ("Other Hardwood", "other_hardwood");
    ("Mixed", "mixed")
  ].

Definition REGION_MAP : gmap string string :=
  list_to_map [
    ("Region 1", "Eastern Panhandle");
    ("Region 2", "Northwestern");
    ("Region 3", "Southwestern");
    ("Region 4", "Southern");
    ("Region 5", "Northeastern")
  ].

Definition MBF_TO_TONS : PyNum.float := PyNum.nearest 5.

(** [SPECIES_MAP.get(species, species.lower().replace(' ', '_'))] *)
Definition standardize_species (species : string) : string :=
  default (PyStr.replace " " "_" (PyStr.lower species))
          (SPECIES_MAP !! species).

(** The conversion chosen by the [if unit == ...] chain. *)
Definition conversion_for (unit : string) : option PyNum.float :=
  if String.eqb unit "$/MBF" then Some MBF_TO_TONS
  else if String.eqb unit "$/Cord" then Some (PyNum.nearest 2.5)
  else None.

Definition standardize_product (product : string) : string :=
  if String.eqb product "Stumpage" then "sawtimber"
  else if String.eqb product "Pulpwood" then "pulpwood"
  else PyStr.lower product.

(** The body of the loop of [transform_to_unified].  The fallback
    [species.lower()] is an argument of [SPECIES_MAP.get] and is evaluated
    for every row; an empty product cell equals neither literal and reaches
    [product.lower()]. *)
Definition assemble (row : RawRow) : outcome (option CanonicalRecord) :=
  match raw_price_avg row with
  | None => Done None
  | Some price =>
      if PyNum.is_nan price || PyNum.is_zero price then Done None
      else
        let region := raw_region row in
        let region_std := default region (REGION_MAP !! region) in
        species ← py_str AttributeError (raw_species row);
        let species_std := standardize_species species in
        let unit := raw_unit row in
        let conversion := conversion_for unit in
        let price_per_ton := PyNum.div price <$> conversion in
        product ← py_str AttributeError (raw_product_type row);
        let product_type := standardize_product product in
        year ← py_int (raw_year row);
        Done (Some {|
          source := "WV";
          year := year;
          quarter := None;
          period_type := "annual";
          region := region_std;
          county := None;
          species := species_std;
          product_type := product_type;
          price_avg := price;
          price_low := raw_price_low row;
          price_high := raw_price_high row;
          unit_ := unit;
          price_per_ton := round_if_truthy price_per_ton;
          conversion_factor := conversion;
          sample_size := raw_num_reports row;
          notes := Some "WV Division of Forestry Timber Market Report"
        |})
  end.

Definition transform_to_unified (df : list RawRow)
  : outcome (list CanonicalRecord) :=
  iterrows assemble df [].

Definition load_parsed_data : Script RawRow (list RawRow) := read_raw_csv.

Definition subset (r : CanonicalRecord)
  : string * Z * string * string * string :=
  (source r, year r, species r, region r, product_type r).

Definition main : Script RawRow unit :=
  parsed_df ← load_parsed_data;
  wv_unified ← lift (transform_to_unified parsed_df);
  let wv_unified := Pandas.drop_duplicates_last subset wv_unified in
  _ ← show_summary wv_unified;
  existing_df ← read_unified_csv;
  let existing_wv := filter (fun r => source r = "WV") existing_df in
  let existing_df :=
    if (0 <? length existing_wv)%nat
    then filter (fun r => source r ≠ "WV") existing_df
    else existing_df in
  let unified_df := Pandas.sort_values (existing_df ++ wv_unified) in
  to_csv unified_df.

End WV.

(** ** scripts/integrate_ca_cdtfa.py *)

Module CA.

(** A row of [ca_stumpage_parsed.csv]; [raw_timber_type] is [None] when
    the file has no [timber_type] column, [raw_size_code] is the size code
    as it is printed. *)
Record RawRow := {
  raw_year : Pandas.whole;
  raw_half : Pandas.whole;
  raw_timber_value_area : option Z;
  raw_species : option string;
  raw_size_code : string;
  raw_timber_type : option string;
  raw_price_mbf : option PyNum.float
}.

Definition SPECIES_MAP : gmap string string :=
  list_to_map [
    ("Ponderosa Pine", "ponderosa_pine");
    ("Douglas Fir", "douglas_fir");
    ("Hemlock-Fir", "hemlock_fir");
    ("Incense Cedar", "incense_cedar");
    ("Redwood", "redwood");
    ("Port Orford Cedar", "port_orford_cedar")
  ].

Definition TVA_REGIONS : gmap Z string :=
  list_to_map [
    (1%Z, "North Coast (Del Norte, Humboldt)");
    (2%Z, "Mendocino Coast");
    (3%Z, "Santa Cruz Mountains");
    (4%Z, "North Interior (Trinity, Shasta West)");
    (5%Z, "Northeast (Modoc, Lassen, Siskiyou East)");
    (6%Z, "Sacramento Valley");
    (7%Z, "Sierra Nevada North");
    (8%Z, "Sierra Nevada Central");
    (9%Z, "Southern California")
  ].

Definition MBF_TO_TONS : PyNum.float := PyNum.nearest 4.

(** [SPECIES_MAP.get(s, s.lower().replace(' ', '_').replace('-', '_'))] *)
Definition standardize_species (species : string) : string :=
  default (PyStr.replace "-" "_" (PyStr.replace " " "_" (PyStr.lower species)))
          (SPECIES_MAP !! species).

(** The body of the loop of [transform_to_unified]; [notes] prints the
    cells [row['year']] and [row['half']] as they are. *)
Definition assemble (row : RawRow) : outcome (option CanonicalRecord) :=
  match raw_price_mbf row with
  | None => Done None
  | Some price_mbf =>
      if PyNum.is_nan price_mbf then Done None
      else
        let price_per_ton := PyNum.div price_mbf MBF_TO_TONS in
        species ← py_str AttributeError (raw_species row);
        let species_std := standardize_species species in
        tva ← py_int (raw_timber_value_area row);
        let region_desc :=
          default ("TVA " +:+ PyStr.of_int tva) (TVA_REGIONS !! tva) in
        let timber_type := default "green" (raw_timber_type row) in
        let product_type := "sawtimber_" +:+ timber_type in
        year ← py_int (Pandas.whole_value (raw_year row));
        Done (Some {|
          source := "CA";
          year := year;
          quarter := None;
          period_type := "semi-annual";
          region := "TVA_" +:+ PyStr.of_int tva;
          county := Some region_desc;
          species := species_std;
          product_type := product_type;
          price_avg := price_mbf;
          price_low := None;
          price_high := None;
          unit_ := "$/MBF";
          price_per_ton := Some (PyNum.round2 price_per_ton);
          conversion_factor := Some MBF_TO_TONS;
          sample_size := None;
          notes := Some ("CDTFA harvest values "
                         +:+ Pandas.whole_text (raw_year row)
                         +:+ " H" +:+ Pandas.whole_text (raw_half row)
                         +:+ ". Size: " +:+ raw_size_code row
                         +:+ ". Tax assessment, not market.")
        |})
  end.

Definition transform_to_unified (df : list RawRow)
  : outcome (list CanonicalRecord) :=
  iterrows assemble df [].

Definition load_parsed_data : Script RawRow (list RawRow) := read_raw_csv.

Definition subset (r : CanonicalRecord)
  : string * Z * string * string * string * option string :=
  (source r, year r, species r, region r, product_type r, notes r).

(** One entry of the mask [existing_df['notes'].str.contains('CDTFA',
    na=False)]. *)
Definition notes_contain_CDTFA (r : CanonicalRecord) : bool :=
  match notes r with
  | Some s => PyStr.contains "CDTFA" s
  | None => false
  end.

Definition main : Script RawRow unit :=
  parsed_df ← load_parsed_data;
  ca_unified ← lift (transform_to_unified parsed_df);
  let ca_unified := Pandas.drop_duplicates_last subset ca_unified in
  _ ← show_summary ca_unified;
  existing_df ← read_unified_csv;
  _ ← lift (Pandas.str_accessor (notes <$> existing_df));
  let existing_ca := filter (fun r => notes_contain_CDTFA r = true) existing_df in
  let existing_df :=
    if (0 <? length existing_ca)%nat
    then filter (fun r => notes_contain_CDTFA r ≠ true) existing_df
    else existing_df in
  let unified_df := Pandas.sort_values (existing_df ++ ca_unified) in
  to_csv unified_df.

End CA.

(** ** scripts/integrate_usfs_pnw_species.py *)

Module USFS_PNW.

(** A row of [usfs_pnw_table92_species.csv]. *)
Record RawRow := {
  raw_year : option Z;
  raw_species : option string;
  raw_price_per_mbf : option PyNum.float
}.

Definition SPECIES_MAP : gmap string string :=
  list_to_map [
    ("douglas_fir_west", "douglas_fir");
    ("douglas_fir_east", "douglas_fir");
    ("douglas_fir_total", "douglas_fir");
    ("ponderosa_jeffrey_pine", "ponderosa_pine");
    ("sugar_pine", "sugar_pine");
    ("white_pine", "white_pine");
    ("lodgepole_pine", "lodgepole_pine");
    ("engelmann_spruce", "engelmann_spruce");
    ("sitka_spruce", "sitka_spruce");
    ("western_hemlock", "western_hemlock");
    ("cedars", "cedar");
    ("larch", "larch");
    ("noble_shasta_fir", "true_fir");
    ("other_true_firs", "true_fir");
    ("all_species", "all_species")
  ].

Definition REGION_MAP : gmap string string :=
  list_to_map [
    ("douglas_fir_west", "Western OR/WA");
    ("douglas_fir_east", "Eastern OR/WA");
    ("douglas_fir_total", "Pacific Northwest OR/WA")
  ].

Definition MBF_TO_TONS : PyNum.float := PyNum.nearest 4.

(** [SPECIES_MAP.get(species_raw, species_raw)] *)
Definition standardize_species (species_raw : string) : string :=
  default species_raw (SPECIES_MAP !! species_raw).

(** The body of the loop of [transform_to_unified].  The two dictionary
    lookups accept the NaN of an empty species cell; ['west' in species_raw]
    is the first step that needs a string, and nothing between [int] and it
    can raise. *)
Definition assemble (row : RawRow) : outcome (option CanonicalRecord) :=
  match raw_price_per_mbf row with
  | None => Done None
  | Some price =>
      if PyNum.is_nan price || PyNum.is_nonpositive price then Done None
      else
        year ← py_int (raw_year row);
        species_raw ← py_str TypeError (raw_species row);
        let species := standardize_species species_raw in
        let region :=
          default "Pacific Northwest OR/WA" (REGION_MAP !! species_raw) in
        let price_per_ton := PyNum.div price MBF_TO_TONS in
        let note_detail :=
          if PyStr.contains "west" species_raw then "West side (coastal). "
          else if PyStr.contains "east" species_raw
               then "East side (interior). "
               else "" in
        Done (Some {|
          source := "WA_OR";
          year := year;
          quarter := None;
          period_type := "annual";
          region := region;
          county := None;
          species := species;
          product_type := "sawtimber";
          price_avg := price;
          price_low := None;
          price_high := None;
          unit_ := "$/MBF";
          price_per_ton := Some (PyNum.round2 price_per_ton);
          conversion_factor := Some MBF_TO_TONS;
          sample_size := None;
          notes := Some ("USFS PNW Table 92. " +:+ note_detail
                         +:+ "National Forest stumpage, administered pricing.")
        |})
  end.

Definition transform_to_unified (df : list RawRow)
  : outcome (list CanonicalRecord) :=
  iterrows assemble df [].

Definition load_species_data : Script RawRow (list RawRow) := read_raw_csv.

Definition subset (r : CanonicalRecord) : string * Z * string * string :=
  (source r, year r, species r, region r).

Definition main : Script RawRow unit :=
  species_df ← load_species_data;
  wa_or_unified ← lift (transform_to_unified species_df);
  let wa_or_unified := Pandas.drop_duplicates_last subset wa_or_unified in
  _ ← show_summary wa_or_unified;
  existing_df ← read_unified_csv;
  let existing_wa_or := filter (fun r => source r = "WA_OR") existing_df in
  let existing_df :=
    if (0 <? length existing_wa_or)%nat
    then filter (fun r => source r ≠ "WA_OR") existing_df
    else existing_df in
  let unified_df := Pandas.sort_values (existing_df ++ wa_or_unified) in
  to_csv unified_df.

End USFS_PNW.

(** ** The shape shared by the four [main] functions *)

(** Read the parsed file, transform, drop duplicates, print the summary, read
    the unified dataset, look at it ([check]), prune it, append, sort,
    write. *)
Definition integrate {Raw : Type}
    (transform : list Raw -> outcome (list CanonicalRecord))
    (dedup : list CanonicalRecord -> list CanonicalRecord)
    (check : list CanonicalRecord -> outcome unit)
    (prune : list CanonicalRecord -> list CanonicalRecord)
  : Script Raw unit :=
  df ← read_raw_csv;
  batch ← lift (transform df);
  let batch := dedup batch in
  _ ← show_summary batch;
  existing_df ← read_unified_csv;
  _ ← lift (check existing_df);
  to_csv (Pandas.sort_values (prune existing_df ++ batch)).

(** The pruning step of the scripts that first look whether there is
    anything to remove: [if len(df[mask]) > 0: df = df[~mask]]. *)
Definition prune_if_any (mask : CanonicalRecord -> Prop)
    `{!forall r, Decision (mask r)} (df : list CanonicalRecord)
  : list CanonicalRecord :=
  if (0 <? length (filter mask df))%nat
  then filter (fun r => ¬ mask r) df
  else df.

(** The world left by a run that reaches [to_csv]. *)
Definition after_write {Raw : Type} (w : World Raw)
    (out : list CanonicalRecord) : World Raw :=
  {| raw_csv := raw_csv w;
     unified_csv := Some out;
     to_csv_log := to_csv_log w ++ [out] |}.

(** The records a loop body contributes for one input row. *)
Definition kept {Raw : Type}
    (assemble : Raw -> outcome (option CanonicalRecord)) (row : Raw)
  : list CanonicalRecord :=
  match assemble row with
  | Done (Some rec) => [rec]
  | _ => []
  end.

(** Running a script from a world: the outcome and the files afterwards. *)
Definition run {Raw A} (m : Script Raw A) (w : World Raw)
  : outcome A * World Raw := m w.

(** ** The four integrations side by side *)

Inductive integration :=
| mn_forest_resources
| wv_forestry
| ca_cdtfa
| usfs_pnw_species.

Definition RawRow (s : integration) : Type :=
  match s with
  | mn_forest_resources => MN.RawRow
  | wv_forestry => WV.RawRow
  | ca_cdtfa => CA.RawRow
  | usfs_pnw_species => USFS_PNW.RawRow
  end.

(** The value every assembled record of a script carries in [source]. *)
Definition source_code (s : integration) : string :=
  match s with
  | mn_forest_resources => "MN"
  | wv_forestry => "WV"
  | ca_cdtfa => "CA"
  | usfs_pnw_species => "WA_OR"
  end.

(** The price cell the loop body looks at first. *)
Definition raw_price (s : integration) : RawRow s -> option PyNum.float :=
  match s with
  | mn_forest_resources => MN.raw_price
  | wv_forestry => WV.raw_price_avg
  | ca_cdtfa => CA.raw_price_mbf
  | usfs_pnw_species => USFS_PNW.raw_price_per_mbf
  end.

Definition assemble (s : integration)
  : RawRow s -> outcome (option CanonicalRecord) :=
  match s with
  | mn_forest_resources => MN.assemble
  | wv_forestry => WV.assemble
  | ca_cdtfa => CA.assemble
  | usfs_pnw_species => USFS_PNW.assemble
  end.

Definition transform_to_unified (s : integration)
  : list (RawRow s) -> outcome (list CanonicalRecord) :=
  match s with
  | mn_forest_resources => MN.transform_to_unified
  | wv_forestry => WV.transform_to_unified
  | ca_cdtfa => CA.transform_to_unified
  | usfs_pnw_species => USFS_PNW.transform_to_unified
  end.

(** The [drop_duplicates] call of each [main]. *)
Definition deduplicate (s : integration)
  : list CanonicalRecord -> list CanonicalRecord :=
  match s with
  | mn_forest_resources => Pandas.drop_duplicates_last MN.subset
  | wv_forestry => Pandas.drop_duplicates_last WV.subset
  | ca_cdtfa => Pandas.drop_duplicates_last CA.subset
  | usfs_pnw_species => Pandas.drop_duplicates_last USFS_PNW.subset
  end.

(** The rows of the existing dataset a script removes before appending. *)
Definition replaced (s : integration) (r : CanonicalRecord) : Prop :=
  match s with
  | mn_forest_resources => MN.replaced r
  | wv_forestry => source r = "WV"
  | ca_cdtfa => CA.notes_contain_CDTFA r = true
  | usfs_pnw_species => source r = "WA_OR"
  end.

#[export] Instance replaced_dec s r : Decision (replaced s r).
Proof. destruct s; simpl; unfold MN.replaced; apply _. Defined.

Definition main (s : integration) : Script (RawRow s) unit :=
  match s with
  | mn_forest_resources => MN.main
  | wv_forestry => WV.main
  | ca_cdtfa => CA.main
  | usfs_pnw_species => USFS_PNW.main
  end.

(** What a script needs of the dataset it has read before it prunes it:
    the CA script takes the [.str] accessor of the [notes] column. *)
Definition dataset_check (s : integration) (existing : list CanonicalRecord)
  : outcome unit :=
  match s with
  | ca_cdtfa => Pandas.str_accessor (notes <$> existing)
  | _ => Done tt
  end.

(** The unit string the assembled record carries: the row's unit, or the
    literal the CA and WA_OR scripts write. *)
Definition raw_unit (s : integration) : RawRow s -> string :=
  match s with
  | mn_forest_resources => MN.raw_unit
  | wv_forestry => WV.raw_unit
  | ca_cdtfa => fun _ => "$/MBF"
  | usfs_pnw_species => fun _ => "$/MBF"
  end.

(** What each script does with the existing dataset before the append. *)
Definition prune (s : integration)
  : list CanonicalRecord -> list CanonicalRecord :=
  match s with
  | mn_forest_resources => filter (fun r => ¬ MN.replaced r)
  | wv_forestry => prune_if_any (fun r => source r = "WV")
  | ca_cdtfa => prune_if_any (fun r => CA.notes_contain_CDTFA r = true)
  | usfs_pnw_species => prune_if_any (fun r => source r = "WA_OR")
  end.

(** The scripts that select the rows to remove by [source] alone. *)
Definition full_replace (s : integration) : Prop :=
  s = wv_forestry \/ s = usfs_pnw_species.

(** The number [int(row['year'])] is applied to. *)
Definition raw_year (s : integration) : RawRow s -> option Z :=
  match s with
  | mn_forest_resources => MN.raw_year
  | wv_forestry => WV.raw_year
  | ca_cdtfa => fun row => Pandas.whole_value (CA.raw_year row)
  | usfs_pnw_species => USFS_PNW.raw_year
  end.

(** The label cells of a row to which the loop body applies a string
    operation. *)
Definition string_cells (s : integration) : RawRow s -> list (option string) :=
  match s with
  | mn_forest_resources => fun _ => []
  | wv_forestry => fun row => [WV.raw_species row; WV.raw_product_type row]
  | ca_cdtfa => fun row => [CA.raw_species row]
  | usfs_pnw_species => fun row => [USFS_PNW.raw_species row]
  end.

(** What a script writes into [price_low] and [price_high]: the row's own
    cells in WV ([row.get(...)]), the literal [None] elsewhere. *)
Definition raw_price_low (s : integration) : RawRow s -> option PyNum.float :=
  match s with
  | wv_forestry => WV.raw_price_low
  | _ => fun _ => None
  end.

Definition raw_price_high (s : integration) : RawRow s -> option PyNum.float :=
  match s with
  | wv_forestry => WV.raw_price_high
  | _ => fun _ => None
  end.

(** The species table of a script; the MN script has none and copies the
    label ([species = row['species']]). *)
Definition species_map (s : integration) : gmap string string :=
  match s with
  | mn_forest_resources => ∅
  | wv_forestry => WV.SPECIES_MAP
  | ca_cdtfa => CA.SPECIES_MAP
  | usfs_pnw_species => USFS_PNW.SPECIES_MAP
  end.

Definition standardize_species (s : integration) (label : string) : string :=
  match s with
  | mn_forest_resources => label
  | wv_forestry => WV.standardize_species label
  | ca_cdtfa => CA.standardize_species label
  | usfs_pnw_species => USFS_PNW.standardize_species label
  end.

(** Lower-case a byte unless it is one of the separators, which become an
    underscore. *)
Definition underscore_or_lower (separators : list ascii) (c : ascii) : ascii :=
  if bool_decide (c ∈ separators) then "_"%char else PyStr.lower_ascii c.

(** The token each script falls back to for a label without table entry. *)
Definition fallback_token (s : integration) (label : string) : string :=
  match s with
  | mn_forest_resources => label
  | wv_forestry => PyStr.map_chars (underscore_or_lower [" "%char]) label
  | ca_cdtfa => PyStr.map_chars (underscore_or_lower [" "%char; "-"%char]) label
  | usfs_pnw_species => label
  end.

(** The fallback as the specification words it: lower-case, whitespace and
    hyphens replaced by underscores. *)
Definition spec_fallback_token (label : string) : string :=
  PyStr.map_chars
    (fun c => if PyStr.is_space c || Ascii.eqb c "-" then "_"%char
              else PyStr.lower_ascii c)
    label.

(** The columns that tell the records of one script's batch apart in its
    [drop_duplicates] call: the composite key, and in CA also [notes]. *)
Definition dedup_key (s : integration) (r : CanonicalRecord)
  : (string * Z * option Z * string * string * string) * option string :=
  (composite_key r,
   match s with
   | ca_cdtfa => notes r
   | _ => None
   end).

(** The units a script converts, each with the divisor it applies: the
    string literals and constants of the [if unit == ...] chains of the MN
    and WV loops; the CA and WA_OR loops divide every price by their
    [MBF_TO_TONS] and write the unit "$/MBF" themselves. *)
Definition unit_factors (s : integration) : list (string * PyNum.float) :=
  match s with
  | mn_forest_resources =>
      [("$/cord", PyNum.nearest 2.3); ("$/MBF", PyNum.nearest 4)]
  | wv_forestry =>
      [("$/MBF", PyNum.nearest 5); ("$/Cord", PyNum.nearest 2.5)]
  | ca_cdtfa => [("$/MBF", PyNum.nearest 4)]
  | usfs_pnw_species => [("$/MBF", PyNum.nearest 4)]
  end.

(** The scripts that write [round(price_per_ton, 2) if price_per_ton else
    None]; the other two write [round(price_per_ton, 2)]. *)
Definition null_when_zero (s : integration) : bool :=
  match s with
  | mn_forest_resources | wv_forestry => true
  | ca_cdtfa | usfs_pnw_species => false
  end.

(** The recognised unit strings as the specification lists them. *)
Definition spec_recognised_units : list string :=
  ["$/MBF"; "$/ton"; "$/Cord"; "$/Standard Cord"].

(** The files [w] with [df] as the parsed per-source file. *)
Definition with_raw_csv {Raw : Type} (w : World Raw) (df : list Raw)
  : World Raw :=
  {| raw_csv := Some df;
     unified_csv := unified_csv w;
     to_csv_log := to_csv_log w |}.

(** What a run leaves behind that can be observed afterwards: how it ended,
    the unified dataset and the frames written. *)
Definition observable {Raw A : Type} (r : outcome A * World Raw)
  : outcome A * option (list CanonicalRecord) * list (list CanonicalRecord) :=
  (r.1, unified_csv r.2, to_csv_log r.2).

(** ** Sample frames *)

Module Sample.

(** Four rows of a parsed MN file: cordwood, sawtimber, a unit the script
    has no factor for, and a row without price or year. *)
Definition mn_rows : list MN.RawRow :=
  [ {| MN.raw_year := Some 2022%Z; MN.raw_species := "Aspen";
       MN.raw_product_type := "pulpwood";
       MN.raw_price := Some (PyNum.nearest 23); MN.raw_unit := "$/cord" |};
    {| MN.raw_year := Some 2022%Z; MN.raw_species := "Red Pine";
       MN.raw_product_type := "sawtimber";
       MN.raw_price := Some (PyNum.nearest 100); MN.raw_unit := "$/MBF" |};
    {| MN.raw_year := Some 2022%Z; MN.raw_species := "Oak";
       MN.raw_product_type := "sawtimber";
       MN.raw_price := Some (PyNum.nearest 30); MN.raw_unit := "$/ton" |};
    {| MN.raw_year := None; MN.raw_species := "Birch";
       MN.raw_product_type := "pulpwood"; MN.raw_price := None;
       MN.raw_unit := "$/cord" |} ].

Definition mn_record (year : Z) (species product : string) (price : Q)
    (unit : string) (per_ton factor : option Q) : CanonicalRecord :=
  {| source := "MN"; year := year; quarter := None; period_type := "annual";
     region := "Statewide"; county := None; species := species;
     product_type := product; price_avg := PyNum.nearest price;
     price_low := None; price_high := None; unit_ := unit;
     price_per_ton := PyNum.nearest <$> per_ton;
     conversion_factor := PyNum.nearest <$> factor; sample_size := None;
     notes := Some "MN Forest Resources Report. Public agencies stumpage." |}.

Definition mn_records : list CanonicalRecord :=
  [ mn_record 2022 "Aspen" "cordwood" 23 "$/cord" (Some 10%Q) (Some 2.3%Q);
    mn_record 2022 "Red Pine" "sawtimber" 100 "$/MBF" (Some 25%Q) (Some 4%Q);
    mn_record 2022 "Oak" "sawtimber" 30 "$/ton" None None ].

(** An MN row with a negative price and a CA row with price zero. *)
Definition mn_negative_row : MN.RawRow :=
  {| MN.raw_year := Some 2022%Z; MN.raw_species := "Aspen";
     MN.raw_product_type := "pulpwood";
     MN.raw_price := Some (PyNum.nearest (-5)); MN.raw_unit := "$/cord" |}.

Definition ca_zero_row : CA.RawRow :=
  {| CA.raw_year := Pandas.int64 2020; CA.raw_half := Pandas.int64 1;
     CA.raw_timber_value_area := Some 1%Z; CA.raw_species := Some "Redwood";
     CA.raw_size_code := "1"; CA.raw_timber_type := Some "green";
     CA.raw_price_mbf := Some (PyNum.nearest 0) |}.

(** A row without price whose year is missing too. *)
Definition wv_nan_row : WV.RawRow :=
  {| WV.raw_year := None; WV.raw_region := "Region 1";
     WV.raw_species := Some "Red Oak"; WV.raw_product_type := Some "Stumpage";
     WV.raw_price_avg := None; WV.raw_price_low := None;
     WV.raw_price_high := None; WV.raw_unit := "$/MBF";
     WV.raw_num_reports := None |}.

(** A WV row whose low, average and high prices are out of order, and the
    files of a run that integrates it into an empty dataset. *)
Definition wv_disordered_row : WV.RawRow :=
  {| WV.raw_year := Some 2020%Z; WV.raw_region := "Region 1";
     WV.raw_species := Some "Red Oak"; WV.raw_product_type := Some "Stumpage";
     WV.raw_price_avg := Some (PyNum.nearest 50);
     WV.raw_price_low := Some (PyNum.nearest 100);
     WV.raw_price_high := Some (PyNum.nearest 10); WV.raw_unit := "$/MBF";
     WV.raw_num_reports := Some (PyNum.nearest 7) |}.

Definition wv_disordered_record : CanonicalRecord :=
  {| source := "WV"; year := 2020; quarter := None; period_type := "annual";
     region := "Eastern Panhandle"; county := None; species := "red_oak";
     product_type := "sawtimber"; price_avg := PyNum.nearest 50;
     price_low := Some (PyNum.nearest 100);
     price_high := Some (PyNum.nearest 10);
     unit_ := "$/MBF"; price_per_ton := Some (PyNum.nearest 10);
     conversion_factor := Some (PyNum.nearest 5);
     sample_size := Some (PyNum.nearest 7);
     notes := Some "WV Division of Forestry Timber Market Report" |}.

Definition wv_disordered_world : World WV.RawRow :=
  {| raw_csv := Some [wv_disordered_row]; unified_csv := Some [];
     to_csv_log := [] |}.

(** The files of an MN run whose unified dataset cannot be read. *)
Definition mn_unreadable_world : World MN.RawRow :=
  {| raw_csv := Some mn_rows; unified_csv := None; to_csv_log := [] |}.

(** Two MN rows for the same year, species and product, priced 30 and 32. *)
Definition mn_duplicate_rows : list MN.RawRow :=
  [ {| MN.raw_year := Some 2022%Z; MN.raw_species := "Pine";
       MN.raw_product_type := "sawtimber";
       MN.raw_price := Some (PyNum.nearest 30); MN.raw_unit := "$/ton" |};
    {| MN.raw_year := Some 2022%Z; MN.raw_species := "Pine";
       MN.raw_product_type := "sawtimber";
       MN.raw_price := Some (PyNum.nearest 32); MN.raw_unit := "$/ton" |} ].

Definition mn_duplicate_records : list CanonicalRecord :=
  [ mn_record 2022 "Pine" "sawtimber" 30 "$/ton" None None;
    mn_record 2022 "Pine" "sawtimber" 32 "$/ton" None None ].

(** The two halves of one year of the CA schedule, same species, area,
    size code and timber type. *)
Definition ca_half_row (half : Z) (price : Q) : CA.RawRow :=
  {| CA.raw_year := Pandas.int64 2020; CA.raw_half := Pandas.int64 half;
     CA.raw_timber_value_area := Some 1%Z; CA.raw_species := Some "Redwood";
     CA.raw_size_code := "1"; CA.raw_timber_type := Some "green";
     CA.raw_price_mbf := Some (PyNum.nearest price) |}.

Definition ca_half_record (price per_ton : Q) (notes : string)
  : CanonicalRecord :=
  {| source := "CA"; year := 2020; quarter := None;
     period_type := "semi-annual"; region := "TVA_1";
     county := Some "North Coast (Del Norte, Humboldt)";
     species := "redwood"; product_type := "sawtimber_green";
     price_avg := PyNum.nearest price; price_low := None; price_high := None;
     unit_ := "$/MBF"; price_per_ton := Some (PyNum.nearest per_ton);
     conversion_factor := Some (PyNum.nearest 4); sample_size := None;
     notes := Some notes |}.

Definition ca_half_rows : list CA.RawRow :=
  [ ca_half_row 1 500; ca_half_row 2 520 ].

Definition ca_half_records : list CanonicalRecord :=
  [ ca_half_record 500 125
      "CDTFA harvest values 2020 H1. Size: 1. Tax assessment, not market.";
    ca_half_record 520 130
      "CDTFA harvest values 2020 H2. Size: 1. Tax assessment, not market." ].

(** An MN run whose parsed file has a row for 2012, a year the existing
    dataset already covers. *)
Definition mn_2012_existing : list CanonicalRecord :=
  [ mn_record 2012 "Aspen" "cordwood" 20 "$/cord" (Some 8.7%Q) (Some 2.3%Q) ].

Definition mn_2012_world : World MN.RawRow :=
  {| raw_csv :=
       Some [ {| MN.raw_year := Some 2012%Z; MN.raw_species := "Aspen";
                 MN.raw_product_type := "pulpwood";
                 MN.raw_price := Some (PyNum.nearest 23);
                 MN.raw_unit := "$/cord" |} ];
     unified_csv := Some mn_2012_existing;
     to_csv_log := [] |}.

Definition mn_2012_written : list CanonicalRecord :=
  [ mn_record 2012 "Aspen" "cordwood" 20 "$/cord" (Some 8.7%Q) (Some 2.3%Q);
    mn_record 2012 "Aspen" "cordwood" 23 "$/cord" (Some 10%Q) (Some 2.3%Q) ].

(** A WV run over a dataset that holds rows of two sources. *)
Definition other_record (src : string) (year : Z) (price : Q)
  : CanonicalRecord :=
  {| source := src; year := year; quarter := Some 1%Z;
     period_type := "quarterly"; region := "Statewide"; county := None;
     species := "pine"; product_type := "sawtimber";
     price_avg := PyNum.nearest price;
     price_low := None; price_high := None; unit_ := "$/ton";
     price_per_ton := Some (PyNum.nearest price);
     conversion_factor := Some (PyNum.nearest 1);
     sample_size := None; notes := None |}.

Definition wv_world : World WV.RawRow :=
  {| raw_csv := Some [wv_disordered_row];
     unified_csv :=
       Some [ other_record "WV" 2019 40; other_record "TX" 2019 35 ];
     to_csv_log := [] |}.

Definition wv_written : list CanonicalRecord :=
  [ other_record "TX" 2019 35; wv_disordered_record ].

(** A WV run whose parsed file has no row with a price, over a dataset
    that holds a WV row. *)
Definition wv_stale_world : World WV.RawRow :=
  {| raw_csv := Some [wv_nan_row];
     unified_csv := Some [ other_record "WV" 2019 40 ];
     to_csv_log := [] |}.

(** A CA run over a dataset with a CA row from another series and a row
    of another source whose notes mention the CDTFA. *)
Definition noted_record (src : string) (year : Z) (notes : string)
  : CanonicalRecord :=
  {| source := src; year := year; quarter := None; period_type := "annual";
     region := "Statewide"; county := None; species := "redwood";
     product_type := "sawtimber"; price_avg := PyNum.nearest 400;
     price_low := None; price_high := None; unit_ := "$/MBF";
     price_per_ton := Some (PyNum.nearest 100);
     conversion_factor := Some (PyNum.nearest 4);
     sample_size := None; notes := Some notes |}.

Definition ca_existing : list CanonicalRecord :=
  [ noted_record "CA" 2019 "Extension survey of stumpage sales";
    noted_record "OR" 2019 "Benchmarked against the CDTFA schedule" ].

Definition ca_world : World CA.RawRow :=
  {| raw_csv := Some ca_half_rows; unified_csv := Some ca_existing;
     to_csv_log := [] |}.

Definition ca_written : list CanonicalRecord :=
  noted_record "CA" 2019 "Extension survey of stumpage sales"
  :: ca_half_records.

(** A CA run over a dataset whose CA rows come from another series and
    from an earlier CA run. *)
Definition ca_series_existing : list CanonicalRecord :=
  [ noted_record "CA" 2019 "Extension survey of stumpage sales";
    ca_half_record 480 120
      "CDTFA harvest values 2020 H1. Size: 1. Tax assessment, not market." ].

Definition ca_series_world : World CA.RawRow :=
  {| raw_csv := Some ca_half_rows; unified_csv := Some ca_series_existing;
     to_csv_log := [] |}.

(** An MN run over a dataset that has MN rows for 2010 and for 2024. *)
Definition mn_window_existing : list CanonicalRecord :=
  [ mn_record 2010 "Aspen" "cordwood" 18 "$/cord" (Some 7.83%Q) (Some 2.3%Q);
    mn_record 2024 "Aspen" "cordwood" 26 "$/cord" (Some 11.3%Q) (Some 2.3%Q) ].

Definition mn_window_world : World MN.RawRow :=
  {| raw_csv := Some mn_rows; unified_csv := Some mn_window_existing;
     to_csv_log := [] |}.

Definition mn_window_written : list CanonicalRecord :=
  mn_record 2010 "Aspen" "cordwood" 18 "$/cord" (Some 7.83%Q) (Some 2.3%Q)
  :: mn_records.

(** Rows quoted in units the specification lists and the script has no
    factor for: an MN price per ton and a WV price per standard cord. *)
Definition mn_per_ton_row : MN.RawRow :=
  {| MN.raw_year := Some 2022%Z; MN.raw_species := "Pine";
     MN.raw_product_type := "sawtimber";
     MN.raw_price := Some (PyNum.nearest 30); MN.raw_unit := "$/ton" |}.

Definition wv_standard_cord_row : WV.RawRow :=
  {| WV.raw_year := Some 2020%Z; WV.raw_region := "Region 1";
     WV.raw_species := Some "Red Oak"; WV.raw_product_type := Some "Pulpwood";
     WV.raw_price_avg := Some (PyNum.nearest 12);
     WV.raw_price_low := None; WV.raw_price_high := None;
     WV.raw_unit := "$/Standard Cord"; WV.raw_num_reports := None |}.

(** An MN sawtimber price of 61.14 per MBF, and the smallest positive
    float as a price per cord. *)
Definition mn_ash_row : MN.RawRow :=
  {| MN.raw_year := Some 2020%Z; MN.raw_species := "Ash";
     MN.raw_product_type := "sawtimber";
     MN.raw_price := Some (PyNum.nearest 61.14); MN.raw_unit := "$/MBF" |}.

Definition mn_tiny_row : MN.RawRow :=
  {| MN.raw_year := Some 2020%Z; MN.raw_species := "Ash";
     MN.raw_product_type := "pulpwood";
     MN.raw_price := Some (S754_finite false 1 (-1074));
     MN.raw_unit := "$/cord" |}.

End Sample.

(** ** More sample frames *)

Module Sample2.

(** A first WA_OR run over a dataset that has rows of another source only. *)
Definition usfs_rows : list USFS_PNW.RawRow :=
  [ {| USFS_PNW.raw_year := Some 2020%Z; USFS_PNW.raw_species := Some "larch";
       USFS_PNW.raw_price_per_mbf := Some (PyNum.nearest 80) |} ].

Definition usfs_record (year : Z) (species region : string) (price per_ton : Q)
  : CanonicalRecord :=
  {| source := "WA_OR"; year := year; quarter := None;
     period_type := "annual"; region := region; county := None;
     species := species; product_type := "sawtimber";
     price_avg := PyNum.nearest price;
     price_low := None; price_high := None; unit_ := "$/MBF";
     price_per_ton := Some (PyNum.nearest per_ton);
     conversion_factor := Some (PyNum.nearest 4);
     sample_size := None;
     notes := Some "USFS PNW Table 92. National Forest stumpage, administered pricing." |}.

Definition usfs_records : list CanonicalRecord :=
  [ usfs_record 2020 "larch" "Pacific Northwest OR/WA" 80 20 ].

Definition usfs_existing : list CanonicalRecord :=
  [ Sample.other_record "TX" 2019 35 ].

Definition usfs_first_world : World USFS_PNW.RawRow :=
  {| raw_csv := Some usfs_rows; unified_csv := Some usfs_existing;
     to_csv_log := [] |}.

(** An MN file whose rows all lack a usable price, and one with a priced
    row that lacks its year. *)
Definition mn_unpriced_rows : list MN.RawRow :=
  [ {| MN.raw_year := Some 2022%Z; MN.raw_species := "Aspen";
       MN.raw_product_type := "sawtimber";
       MN.raw_price := Some (PyNum.nearest 0); MN.raw_unit := "$/MBF" |};
    {| MN.raw_year := None; MN.raw_species := "Birch";
       MN.raw_product_type := "pulpwood"; MN.raw_price := None;
       MN.raw_unit := "$/cord" |} ].

Definition mn_unpriced_world : World MN.RawRow :=
  {| raw_csv := Some mn_unpriced_rows;
     unified_csv := Some Sample.mn_2012_existing; to_csv_log := [] |}.

Definition mn_yearless_row : MN.RawRow :=
  {| MN.raw_year := None; MN.raw_species := "Aspen";
     MN.raw_product_type := "pulpwood";
     MN.raw_price := Some (PyNum.nearest 23); MN.raw_unit := "$/cord" |}.

Definition mn_yearless_world : World MN.RawRow :=
  {| raw_csv := Some (Sample.mn_rows ++ [mn_yearless_row]);
     unified_csv := Some Sample.mn_2012_existing; to_csv_log := [] |}.

(** A WV file in which a row without species label stands before a priced
    row without year. *)
Definition wv_unlabelled_row : WV.RawRow :=
  {| WV.raw_year := Some 2020%Z; WV.raw_region := "Region 1";
     WV.raw_species := None; WV.raw_product_type := Some "Stumpage";
     WV.raw_price_avg := Some (PyNum.nearest 50); WV.raw_price_low := None;
     WV.raw_price_high := None; WV.raw_unit := "$/MBF";
     WV.raw_num_reports := None |}.

Definition wv_yearless_row : WV.RawRow :=
  {| WV.raw_year := None; WV.raw_region := "Region 1";
     WV.raw_species := Some "Red Oak"; WV.raw_product_type := Some "Stumpage";
     WV.raw_price_avg := Some (PyNum.nearest 50); WV.raw_price_low := None;
     WV.raw_price_high := None; WV.raw_unit := "$/MBF";
     WV.raw_num_reports := None |}.

Definition wv_yearless_world : World WV.RawRow :=
  {| raw_csv := Some [wv_unlabelled_row; wv_yearless_row];
     unified_csv := Some []; to_csv_log := [] |}.

(** An MN file with a pulp-and-bolts price and a pulpwood price for the
    same year and species. *)
Definition mn_pulp_bolts_row : MN.RawRow :=
  {| MN.raw_year := Some 2022%Z; MN.raw_species := "aspen";
     MN.raw_product_type := "pulp_bolts";
     MN.raw_price := Some (PyNum.nearest 37.68); MN.raw_unit := "$/cord" |}.

Definition mn_pulpwood_row : MN.RawRow :=
  {| MN.raw_year := Some 2022%Z; MN.raw_species := "aspen";
     MN.raw_product_type := "pulpwood";
     MN.raw_price := Some (PyNum.nearest 33); MN.raw_unit := "$/cord" |}.

Definition mn_pulp_bolts_record : CanonicalRecord :=
  {| source := "MN"; year := 2022; quarter := None; period_type := "annual";
     region := "Statewide"; county := None; species := "aspen";
     product_type := "cordwood"; price_avg := PyNum.nearest 37.68;
     price_low := None; price_high := None; unit_ := "$/cord";
     price_per_ton := Some (PyNum.nearest 16.38);
     conversion_factor := Some (PyNum.nearest 2.3);
     sample_size := None;
     notes := Some "MN Forest Resources Report. Pulp and bolts combined price." |}.

Definition mn_pulpwood_record : CanonicalRecord :=
  Sample.mn_record 2022 "aspen" "cordwood" 33 "$/cord"
    (Some 14.35%Q) (Some 2.3%Q).

(** Two WA_OR rows of one year for the two true-fir columns of Table 92. *)
Definition usfs_noble_row : USFS_PNW.RawRow :=
  {| USFS_PNW.raw_year := Some 2020%Z;
     USFS_PNW.raw_species := Some "noble_shasta_fir";
     USFS_PNW.raw_price_per_mbf := Some (PyNum.nearest 120) |}.

Definition usfs_other_firs_row : USFS_PNW.RawRow :=
  {| USFS_PNW.raw_year := Some 2020%Z;
     USFS_PNW.raw_species := Some "other_true_firs";
     USFS_PNW.raw_price_per_mbf := Some (PyNum.nearest 90) |}.

(** A parsed CA file in which a row without price has no year either: the
    year column is read as floats. *)
Definition ca_float_year_rows : list CA.RawRow :=
  [ {| CA.raw_year := Pandas.float64 (Some 2020%Z);
       CA.raw_half := Pandas.int64 1;
       CA.raw_timber_value_area := Some 1%Z;
       CA.raw_species := Some "Redwood"; CA.raw_size_code := "1";
       CA.raw_timber_type := Some "green";
       CA.raw_price_mbf := Some (PyNum.nearest 500) |};
    {| CA.raw_year := Pandas.float64 None; CA.raw_half := Pandas.int64 2;
       CA.raw_timber_value_area := None;
       CA.raw_species := None; CA.raw_size_code := "1";
       CA.raw_timber_type := Some "green";
       CA.raw_price_mbf := None |} ].

End Sample2.

(** ** Notions used by the further properties *)

#[export] Instance integration_eq_dec : EqDecision integration.
Proof. solve_decision. Defined.

(** Rows that [sort_values] cannot tell apart: same [source], [year] and
    [quarter]. *)
Definition same_sort_key (r x : CanonicalRecord) : Prop :=
  source x = source r /\ year x = year r /\ quarter x = quarter r.

#[export] Instance same_sort_key_dec r x : Decision (same_sort_key r x).
Proof. unfold same_sort_key. apply _. Defined.

(** The order [sort_values] establishes. *)
Definition sort_key_le (r1 r2 : CanonicalRecord) : Prop :=
  Pandas.sort_key_leb r1 r2 = true.

(** The region the WA_OR script gives a raw species label:
    [REGION_MAP[species_raw]] if present, else the whole region. *)
Definition usfs_region_for (species_raw : string) : string :=
  default "Pacific Northwest OR/WA" (USFS_PNW.REGION_MAP !! species_raw).

(** ASCII capital letters. *)
Definition is_upper (c : ascii) : bool :=
  let n := N_of_ascii c in ((65 <=? n) && (n <=? 90))%N.

(** The characters a script's species tokens are meant to be free of:
    capital letters and the separators its fallback replaces. *)
Definition separators (s : integration) : list ascii :=
  match s with
  | wv_forestry => [" "%char]
  | ca_cdtfa => [" "%char; "-"%char]
  | _ => []
  end.

Definition clean_char (s : integration) (c : ascii) : bool :=
  negb (is_upper c) && negb (bool_decide (c ∈ separators s)).

Definition clean_token (s : integration) (token : string) : bool :=
  forallb (clean_char s) (list_ascii_of_string token).

(** The timber type a CA row is filed under:
    [row.get('timber_type', 'green')]. *)
Definition ca_timber_type (row : CA.RawRow) : string :=
  default "green" (CA.raw_timber_type row).

(** Strings without a full stop, and strings without a space. *)
Definition no_dot (s : string) : bool :=
  forallb (fun c => negb (Ascii.eqb c ".")) (list_ascii_of_string s).

Definition no_space (s : string) : bool :=
  forallb (fun c => negb (Ascii.eqb c " ")) (list_ascii_of_string s).

(** Whether the loop body says [continue] on a row. *)
Definition skips (s : integration) (row : RawRow s) : bool :=
  match assemble s row with
  | Done None => true
  | _ => false
  end.

(** The composite key together with [notes]. *)
Definition noted_key (r : CanonicalRecord)
  : (string * Z * option Z * string * string * string) * option string :=
  (composite_key r, notes r).

(** The relabelling steps written inline in the loop bodies:
    [REGION_MAP.get(region, region)] in WV and
    [PRODUCT_MAP.get(product, product)] in MN. *)
Definition wv_standardize_region (region : string) : string :=
  default region (WV.REGION_MAP !! region).

Definition mn_standardize_product (product : string) : string :=
  default product (MN.PRODUCT_MAP !! product).

(** What the loop body can raise: the [ValueError] of [int(nan)], and on
    an empty label cell [AttributeError] in WV and CA, [TypeError] in
    WA_OR. *)
Definition may_raise (s : integration) (e : exn) : Prop :=
  match e with
  | ValueError => True
  | AttributeError => s = wv_forestry \/ s = ca_cdtfa
  | TypeError => s = usfs_pnw_species
  | _ => False
  end.

(** * Properties *)

(** ** Stable sorting *)

Section StableSort.
Context {A : Type} (leb : A -> A -> bool).
Hypothesis leb_total : forall a b, leb a b = true \/ leb b a = true.
Hypothesis leb_trans :
  forall a b c, leb a b = true -> leb b c = true -> leb a c = true.

Local Abbreviation ins := (Pandas.insert_row leb).
Local Abbreviation sort := (Pandas.stable_sort leb).
Local Abbreviation le := (fun a b => leb a b = true).

Lemma insert_row_perm x l : ins x l ≡ₚ x :: l.
Proof.
  induction l as [|y l IH]; simpl; [done|].
  destruct (leb x y); [done|].
  rewrite IH. apply Permutation_swap.
Qed.

Lemma stable_sort_perm l : sort l ≡ₚ l.
Proof.
  induction l as [|x l IH]; simpl; [done|].
  unfold Pandas.stable_sort in *. simpl.
  rewrite insert_row_perm. by rewrite IH.
Qed.

Lemma insert_row_head x l :
  Forall (le x) l -> ins x l = x :: l.
Proof.
  destruct l as [|y l]; simpl; [done|].
  intros Hall. apply Forall_cons_1 in Hall as [-> _]. done.
Qed.

Lemma insert_row_sorted x l :
  StronglySorted le l -> StronglySorted le (ins x l).
Proof.
  induction 1 as [|y l Hs IH Hall]; simpl.
  - repeat constructor.
  - destruct (leb x y) eqn:Hxy.
    + constructor; [by constructor|].
      constructor; [done|].
      eapply Forall_impl; [exact Hall|]. simpl. eauto.
    + constructor; [done|].
      rewrite insert_row_perm. constructor; [|done].
      destruct (leb_total x y); congruence.
Qed.

Lemma stable_sort_sorted l : StronglySorted le (sort l).
Proof.
  induction l as [|x l IH]; [constructor|].
  by apply insert_row_sorted.
Qed.

Lemma filter_insert_row (P : A -> Prop) `{!forall a, Decision (P a)} x l :
  StronglySorted le l ->
  filter P (ins x l)
  = if decide (P x) then ins x (filter P l) else filter P l.
Proof.
  induction 1 as [|y l Hs IH Hall].
  - simpl. rewrite filter_cons, filter_nil. by destruct (decide (P x)).
  - simpl. destruct (leb x y) eqn:Hxy.
    + rewrite filter_cons. destruct (decide (P x)); [|done].
      rewrite insert_row_head; [done|].
      apply list.Forall_forall. intros z Hz.
      apply list_elem_of_filter in Hz as [_ Hz].
      apply elem_of_cons in Hz as [->|Hz]; [done|].
      rewrite list.Forall_forall in Hall.
      apply (leb_trans _ y); [done|]. by apply Hall.
    + rewrite !(filter_cons _ y), IH.
      destruct (decide (P y)), (decide (P x)); simpl; by rewrite ?Hxy.
Qed.

Lemma filter_stable_sort (P : A -> Prop) `{!forall a, Decision (P a)} l :
  filter P (sort l) = sort (filter P l).
Proof.
  induction l as [|x l IH]; [done|].
  change (sort (x :: l)) with (ins x (sort l)).
  rewrite filter_insert_row by apply stable_sort_sorted.
  rewrite filter_cons, IH. by destruct (decide (P x)).
Qed.

Lemma insert_row_comm a b l :
  leb a b = false -> ins b (ins a l) = ins a (ins b l).
Proof.
  intros Hab.
  assert (Hba : leb b a = true) by (destruct (leb_total a b); congruence).
  induction l as [|y l IH]; simpl.
  - by rewrite Hab, Hba.
  - destruct (leb a y) eqn:Hay.
    + assert (Hby : leb b y = true) by eauto.
      simpl. rewrite Hba, Hby. simpl. by rewrite Hab, Hay.
    + simpl. destruct (leb b y) eqn:Hby; simpl.
      * by rewrite Hab, Hay.
      * by rewrite Hay, IH.
Qed.

Lemma foldr_insert_row_insert a l acc :
  foldr ins acc (ins a l) = ins a (foldr ins acc l).
Proof.
  induction l as [|b l IH]; simpl; [done|].
  destruct (leb a b) eqn:Hab; simpl; [done|].
  by rewrite IH, insert_row_comm.
Qed.

Lemma foldr_insert_row_sort l acc :
  foldr ins acc (sort l) = foldr ins acc l.
Proof.
  induction l as [|a l IH]; [done|].
  change (sort (a :: l)) with (ins a (sort l)).
  by rewrite foldr_insert_row_insert, IH.
Qed.

Lemma stable_sort_app l1 l2 : sort (l1 ++ l2) = foldr ins (sort l2) l1.
Proof. unfold Pandas.stable_sort. by rewrite foldr_app. Qed.

(** Sorting the first part beforehand does not change the result. *)
Lemma stable_sort_sort_app l1 l2 : sort (sort l1 ++ l2) = sort (l1 ++ l2).
Proof. by rewrite !stable_sort_app, foldr_insert_row_sort. Qed.

End StableSort.

(** ** The row order of [sort_values] *)

Lemma str_compare_refl a : String_as_OT.compare a a = Eq.
Proof.
  destruct (String_as_OT.compare_spec a a) as [_|H|H]; [done|..];
    by apply irreflexivity in H; [|apply String_as_OT.lt_strorder].
Qed.

Lemma str_compare_eq a b : String_as_OT.compare a b = Eq -> a = b.
Proof.
  destruct (String_as_OT.compare_spec a b) as [H|_|_]; [|done..].
  by intros _.
Qed.

Lemma str_compare_lt_trans a b c :
  String_as_OT.compare a b = Lt -> String_as_OT.compare b c = Lt ->
  String_as_OT.compare a c = Lt.
Proof.
  intros Hab Hbc.
  exact (@transitivity _ _
           (@StrictOrder_Transitive _ _ String_as_OT.lt_strorder) a b c Hab Hbc).
Qed.

Lemma str_compare_gt a b :
  String_as_OT.compare a b = Gt -> String_as_OT.compare b a = Lt.
Proof.
  destruct (String_as_OT.compare_spec a b) as [_|_|H]; [done..|].
  by intros _.
Qed.

Lemma na_last_leb_total a b :
  Pandas.na_last_leb a b = true \/ Pandas.na_last_leb b a = true.
Proof. destruct a, b; simpl; auto. rewrite !Z.leb_le. lia. Qed.

Lemma na_last_leb_trans a b c :
  Pandas.na_last_leb a b = true -> Pandas.na_last_leb b c = true ->
  Pandas.na_last_leb a c = true.
Proof. destruct a, b, c; simpl; try done. rewrite !Z.leb_le. lia. Qed.

Lemma sort_key_leb_total r1 r2 :
  Pandas.sort_key_leb r1 r2 = true \/ Pandas.sort_key_leb r2 r1 = true.
Proof.
  unfold Pandas.sort_key_leb.
  destruct (String_as_OT.compare (source r1) (source r2)) eqn:H12.
  - apply str_compare_eq in H12 as ->. rewrite str_compare_refl.
    rewrite (Z.compare_antisym (year r1) (year r2)).
    destruct (year r1 ?= year r2)%Z; simpl; auto using na_last_leb_total.
  - auto.
  - apply str_compare_gt in H12 as ->. auto.
Qed.

Lemma sort_key_leb_trans r1 r2 r3 :
  Pandas.sort_key_leb r1 r2 = true -> Pandas.sort_key_leb r2 r3 = true ->
  Pandas.sort_key_leb r1 r3 = true.
Proof.
  unfold Pandas.sort_key_leb.
  destruct (String_as_OT.compare (source r1) (source r2)) eqn:H12; [| |done];
    (destruct (String_as_OT.compare (source r2) (source r3)) eqn:H23; [| |done]).
  - apply str_compare_eq in H12 as ->. rewrite H23.
    destruct (Z.compare_spec (year r1) (year r2)); [| |done];
      (destruct (Z.compare_spec (year r2) (year r3)); [| |done]);
      (destruct (Z.compare_spec (year r1) (year r3)); try lia; try done).
    apply na_last_leb_trans.
  - apply str_compare_eq in H12 as ->. by rewrite H23.
  - apply str_compare_eq in H23 as <-. by rewrite H12.
  - by rewrite (str_compare_lt_trans _ _ _ H12 H23).
Qed.

Lemma sort_values_perm df : Pandas.sort_values df ≡ₚ df.
Proof. apply stable_sort_perm. Qed.

Lemma elem_of_sort_values r df : r ∈ Pandas.sort_values df <-> r ∈ df.
Proof. by rewrite sort_values_perm. Qed.

Lemma filter_sort_values (P : CanonicalRecord -> Prop)
    `{!forall r, Decision (P r)} df :
  filter P (Pandas.sort_values df) = Pandas.sort_values (filter P df).
Proof.
  apply filter_stable_sort;
    [apply sort_key_leb_total | apply sort_key_leb_trans].
Qed.

Lemma sort_values_sort_app df1 df2 :
  Pandas.sort_values (Pandas.sort_values df1 ++ df2)
  = Pandas.sort_values (df1 ++ df2).
Proof.
  apply stable_sort_sort_app;
    [apply sort_key_leb_total | apply sort_key_leb_trans].
Qed.

(** ** [drop_duplicates(keep='last')] *)

Section DropDuplicates.
Context {A K : Type} `{EqDecision K} (key : A -> K).

Local Abbreviation dedup := (Pandas.drop_duplicates_last key).

Lemma drop_duplicates_last_sublist df : dedup df `sublist_of` df.
Proof.
  induction df as [|r df IH]; simpl; [done|].
  destruct (decide _); by constructor.
Qed.

Lemma drop_duplicates_last_subseteq r df : r ∈ dedup df -> r ∈ df.
Proof. apply sublist_subseteq, drop_duplicates_last_sublist. Qed.

(** The keys of the result are the keys of the input. *)
Lemma drop_duplicates_last_keys k df :
  k ∈ key <$> dedup df <-> k ∈ key <$> df.
Proof.
  induction df as [|r df IH]; simpl; [done|].
  destruct (decide _) as [Hin|Hout]; rewrite ?fmap_cons, ?elem_of_cons, IH.
  - split; [auto|]. intros [->|?]; auto.
  - done.
Qed.

(** No key occurs twice in the result. *)
Lemma drop_duplicates_last_NoDup df : NoDup (key <$> dedup df).
Proof.
  induction df as [|r df IH]; simpl; [constructor|].
  destruct (decide _) as [Hin|Hout]; [done|].
  rewrite fmap_cons. apply NoDup_cons. split; [|done].
  by rewrite drop_duplicates_last_keys.
Qed.

(** A row is kept exactly when it stands at a position after which its key
    does not occur again. *)
Lemma elem_of_drop_duplicates_last r df :
  r ∈ dedup df <-> exists l1 l2, df = l1 ++ r :: l2 /\ key r ∉ key <$> l2.
Proof.
  split.
  - induction df as [|x df IH]; simpl; [by intros ?%elem_of_nil|].
    destruct (decide _) as [Hin|Hout].
    + intros (l1 & l2 & -> & Hl2)%IH. by exists (x :: l1), l2.
    + intros [->|(l1 & l2 & -> & Hl2)%IH]%elem_of_cons.
      * by exists [], df.
      * by exists (x :: l1), l2.
  - intros (l1 & l2 & -> & Hl2).
    induction l1 as [|x l1 IH]; simpl.
    + rewrite decide_False by done. by left.
    + destruct (decide _); [done|]. by right.
Qed.

(** Two subsets that identify the same rows of [df] drop the same rows. *)
Lemma drop_duplicates_last_ext {K' : Type} `{EqDecision K'} (key' : A -> K') df :
  (forall r1 r2, r1 ∈ df -> r2 ∈ df -> key r1 = key r2 <-> key' r1 = key' r2) ->
  dedup df = Pandas.drop_duplicates_last key' df.
Proof.
  induction df as [|x df IH]; intros Hagree; simpl; [done|].
  rewrite IH by (intros; apply Hagree; by right).
  assert (key x ∈ key <$> df <-> key' x ∈ key' <$> df) as Hiff.
  { rewrite !list_elem_of_fmap.
    split; intros (y & Hy & Hin); exists y; (split; [|done]);
      apply (Hagree x y); (by left) || (by right) || done. }
  destruct (decide (key x ∈ _)), (decide (key' x ∈ _)); tauto || done.
Qed.

Lemma drop_duplicates_last_nil df : dedup df = [] <-> df = [].
Proof.
  split; [|by intros ->].
  intros Hnil. destruct df as [|r df]; [done|].
  assert (key r ∈ key <$> dedup (r :: df)) as Hin.
  { apply drop_duplicates_last_keys. rewrite fmap_cons. by left. }
  rewrite Hnil in Hin. by apply elem_of_nil in Hin.
Qed.

End DropDuplicates.

(** ** The row loop *)

Section Iterrows.
Context {Raw : Type} (assemble : Raw -> outcome (option CanonicalRecord)).

Lemma iterrows_acc df rows :
  iterrows assemble df rows
  = match iterrows assemble df [] with
    | Done out => Done (rows ++ out)
    | Raised e => Raised e
    end.
Proof.
  revert rows. induction df as [|row df IH]; intros rows; simpl.
  - by rewrite app_nil_r.
  - destruct (assemble row) as [[rec|]|e]; [|done..].
    rewrite (IH (rows ++ [rec])), (IH [rec]).
    destruct (iterrows assemble df []); [|done].
    by rewrite <- app_assoc.
Qed.

Lemma iterrows_cons row df :
  iterrows assemble (row :: df) []
  = match assemble row with
    | Raised e => Raised e
    | Done o =>
        match iterrows assemble df [] with
        | Done out => Done (kept assemble row ++ out)
        | Raised e => Raised e
        end
    end.
Proof.
  simpl. unfold kept. destruct (assemble row) as [[rec|]|e]; [|by destruct (iterrows _ _ _)|done].
  by rewrite iterrows_acc.
Qed.

(** A run of the loop that does not raise returns what the rows contribute,
    in order. *)
Lemma iterrows_Done df out :
  iterrows assemble df [] = Done out ->
  out = df ≫= kept assemble.
Proof.
  revert out. induction df as [|row df IH]; intros out.
  - simpl. by intros [= <-].
  - rewrite iterrows_cons.
    destruct (assemble row) as [o|e]; [|done].
    destruct (iterrows assemble df []) as [out'|e]; [|done].
    intros [= <-]. by rewrite (IH out').
Qed.

(** The loop raises only if the body does on some row. *)
Lemma iterrows_total df :
  Forall (fun row => exists o, assemble row = Done o) df ->
  iterrows assemble df [] = Done (df ≫= kept assemble).
Proof.
  induction 1 as [|row df [o Ho] _ IH]; [done|].
  by rewrite iterrows_cons, Ho, IH.
Qed.

(** A row on which the body says [continue] leaves no trace. *)
Lemma iterrows_skip df1 row df2 :
  assemble row = Done None ->
  iterrows assemble (df1 ++ row :: df2) []
  = iterrows assemble (df1 ++ df2) [].
Proof.
  intros Hskip. induction df1 as [|r df1 IH].
  - simpl. by rewrite Hskip.
  - rewrite <- !app_comm_cons, !iterrows_cons, IH. done.
Qed.

End Iterrows.

(** ** Running a script *)

Section Integrate.
Context {Raw : Type}
  (transform : list Raw -> outcome (list CanonicalRecord))
  (dedup : list CanonicalRecord -> list CanonicalRecord)
  (check : list CanonicalRecord -> outcome unit)
  (prune : list CanonicalRecord -> list CanonicalRecord).

Local Abbreviation script := (integrate transform dedup check prune).

(** With both files readable, a batch that is not empty and a dataset that
    passes the check, the run writes the sorted concatenation. *)
Lemma integrate_Done w df rows existing :
  raw_csv w = Some df ->
  transform df = Done rows ->
  dedup rows <> [] ->
  unified_csv w = Some existing ->
  check existing = Done tt ->
  run script w
  = (Done tt, after_write w (Pandas.sort_values (prune existing ++ dedup rows))).
Proof.
  intros Hraw Htr Hne Hun Hck.
  unfold run, integrate, mbind, script_bind, read_raw_csv, lift,
    read_unified_csv, show_summary, to_csv, after_write.
  rewrite Hraw, Htr. destruct (dedup rows) as [|r batch]; [done|].
  simpl. unfold mret, script_ret. rewrite Hun, Hck. simpl. by rewrite Hraw.
Qed.

(** Conversely a run that terminates normally went through every step. *)
Lemma integrate_Done_inv w w' :
  run script w = (Done tt, w') ->
  exists df rows existing,
    raw_csv w = Some df /\ transform df = Done rows /\ dedup rows <> [] /\
    unified_csv w = Some existing /\ check existing = Done tt /\
    w' = after_write w (Pandas.sort_values (prune existing ++ dedup rows)).
Proof.
  unfold run, integrate, mbind, script_bind, read_raw_csv, lift,
    read_unified_csv, show_summary, to_csv.
  destruct (raw_csv w) as [df|] eqn:Hraw; [|done].
  destruct (transform df) as [rows|e] eqn:Htr; [|done].
  destruct (dedup rows) as [|r batch] eqn:Hb; [done|].
  simpl. unfold mret, script_ret.
  destruct (unified_csv w) as [existing|] eqn:Hun; [|done].
  destruct (check existing) as [[]|e] eqn:Hck; [|done].
  intros [= <-]. exists df, rows, existing.
  unfold after_write. by rewrite Hb, Hraw.
Qed.

(** A run that raises leaves every file as it was. *)
Lemma integrate_Raised w e w' :
  run script w = (Raised e, w') -> w' = w.
Proof.
  unfold run, integrate, mbind, script_bind, read_raw_csv, lift,
    read_unified_csv, show_summary, to_csv.
  destruct (raw_csv w) as [df|]; [|by intros [= _ <-]].
  destruct (transform df) as [rows|e']; [|by intros [= _ <-]].
  destruct (dedup rows) as [|r batch]; [by intros [= _ <-]|].
  simpl. unfold mret, script_ret.
  destruct (unified_csv w) as [existing|]; [|by intros [= _ <-]].
  destruct (check existing) as [[]|e']; [done|by intros [= _ <-]].
Qed.

(** Without a readable unified dataset the run raises. *)
Lemma integrate_unreadable w :
  unified_csv w = None -> exists e, run script w = (Raised e, w).
Proof.
  intros Hun.
  unfold run, integrate, mbind, script_bind, read_raw_csv, lift,
    read_unified_csv, show_summary, to_csv.
  destruct (raw_csv w) as [df|]; [|by eexists].
  destruct (transform df) as [rows|e']; [|by eexists].
  destruct (dedup rows) as [|r batch]; [by eexists|].
  simpl. unfold mret, script_ret. rewrite Hun. by eexists.
Qed.

End Integrate.

Lemma prune_if_any_filter (mask : CanonicalRecord -> Prop)
    `{!forall r, Decision (mask r)} df :
  prune_if_any mask df = filter (fun r => ¬ mask r) df.
Proof.
  unfold prune_if_any.
  destruct (filter mask df) as [|r l] eqn:Hf; simpl; [|done].
  symmetry. induction df as [|x df IH]; [done|].
  rewrite filter_cons in Hf. destruct (decide (mask x)); [done|].
  rewrite filter_cons, decide_True by done. f_equal. by apply IH.
Qed.

Lemma MN_main_integrate :
  MN.main
  = integrate MN.transform_to_unified
      (Pandas.drop_duplicates_last MN.subset)
      (fun _ => Done tt)
      (filter (fun r => ¬ MN.replaced r)).
Proof. reflexivity. Qed.

Lemma WV_main_integrate :
  WV.main
  = integrate WV.transform_to_unified
      (Pandas.drop_duplicates_last WV.subset)
      (fun _ => Done tt)
      (prune_if_any (fun r => source r = "WV")).
Proof. reflexivity. Qed.

Lemma CA_main_integrate :
  CA.main
  = integrate CA.transform_to_unified
      (Pandas.drop_duplicates_last CA.subset)
      (fun existing_df => Pandas.str_accessor (notes <$> existing_df))
      (prune_if_any (fun r => CA.notes_contain_CDTFA r = true)).
Proof. reflexivity. Qed.

Lemma USFS_PNW_main_integrate :
  USFS_PNW.main
  = integrate USFS_PNW.transform_to_unified
      (Pandas.drop_duplicates_last USFS_PNW.subset)
      (fun _ => Done tt)
      (prune_if_any (fun r => source r = "WA_OR")).
Proof. reflexivity. Qed.

(** ** The four scripts as instances of one shape *)

Lemma main_integrate s :
  main s
  = integrate (transform_to_unified s) (deduplicate s) (dataset_check s)
      (prune s).
Proof. by destruct s. Qed.

Lemma prune_filter s existing :
  prune s existing = filter (fun r => ¬ replaced s r) existing.
Proof. destruct s; simpl; [done|apply prune_if_any_filter..]. Qed.

(** A run of [main s] that terminates normally wrote the sorted
    concatenation of the pruned dataset and the deduplicated batch. *)
Lemma main_Done_inv s w w' :
  run (main s) w = (Done tt, w') ->
  exists df rows existing,
    raw_csv w = Some df /\ transform_to_unified s df = Done rows /\
    deduplicate s rows <> [] /\ unified_csv w = Some existing /\
    dataset_check s existing = Done tt /\
    w' = after_write w
           (Pandas.sort_values
              (filter (fun r => ¬ replaced s r) existing ++ deduplicate s rows)).
Proof.
  rewrite main_integrate.
  intros (df & rows & existing & ? & ? & ? & ? & ? & ->)%integrate_Done_inv.
  exists df, rows, existing. by rewrite prune_filter.
Qed.

(** It does terminate normally when both files can be read, no row raises,
    at least one record is assembled and the dataset passes the check. *)
Lemma main_Done s w df rows existing :
  raw_csv w = Some df ->
  transform_to_unified s df = Done rows ->
  rows <> [] ->
  unified_csv w = Some existing ->
  dataset_check s existing = Done tt ->
  run (main s) w
  = (Done tt,
     after_write w
       (Pandas.sort_values
          (filter (fun r => ¬ replaced s r) existing ++ deduplicate s rows))).
Proof.
  intros Hraw Htr Hne Hun Hck. rewrite main_integrate, <- prune_filter.
  apply (integrate_Done _ _ _ _ w df rows existing); try done.
  destruct s; simpl; by rewrite drop_duplicates_last_nil.
Qed.

Lemma transform_iterrows s df :
  transform_to_unified s df = iterrows (assemble s) df [].
Proof. by destruct s. Qed.

(** The records of a transformed frame are those the loop body built. *)
Lemma elem_of_transform s df out rec :
  transform_to_unified s df = Done out ->
  rec ∈ out <-> exists row, row ∈ df /\ assemble s row = Done (Some rec).
Proof.
  rewrite transform_iterrows. intros ->%iterrows_Done.
  rewrite list_elem_of_bind. unfold kept.
  split.
  - intros (row & Hrec & Hrow). exists row. split; [done|].
    destruct (assemble s row) as [[rec'|]|e];
      [|by apply elem_of_nil in Hrec..].
    by apply list_elem_of_singleton in Hrec as ->.
  - intros (row & Hrow & Has). exists row. rewrite Has.
    split; [by apply list_elem_of_singleton|done].
Qed.

(** ** What the loop bodies build *)

Ltac assemble_inv H :=
  unfold assemble, MN.assemble, WV.assemble, CA.assemble, USFS_PNW.assemble,
    mbind, outcome_bind, py_int, py_str in H;
  repeat case_match; simplify_eq.

Lemma iterrows_Done_Forall {Raw}
    (f : Raw -> outcome (option CanonicalRecord)) df out :
  iterrows f df [] = Done out ->
  Forall (fun row => exists o, f row = Done o) df.
Proof.
  revert out. induction df as [|row df IH]; intros out; [by constructor|].
  rewrite iterrows_cons.
  destruct (f row) as [o|e] eqn:Hrow; [|done].
  destruct (iterrows f df []) as [out'|e]; [|done].
  intros _. constructor; [by exists o|by apply (IH out')].
Qed.

(** A positive float is a number, not zero and not below zero. *)
Lemma is_positive_number p :
  PyNum.is_positive p = true ->
  PyNum.is_nan p = false /\ PyNum.is_zero p = false
  /\ PyNum.is_nonpositive p = false.
Proof. destruct p as [[]|[]| |[] m e]; vm_compute; done. Qed.

(** A number that is not below or at zero is positive. *)
Lemma is_positive_intro p :
  PyNum.is_nan p = false -> PyNum.is_nonpositive p = false ->
  PyNum.is_positive p = true.
Proof. destruct p as [[]|[]| |[] m e]; vm_compute; done. Qed.

Lemma assembled_source s row rec :
  assemble s row = Done (Some rec) ->
  source rec = source_code s /\ quarter rec = None.
Proof. intros H. destruct s; assemble_inv H; done. Qed.

Lemma assembled_price s row rec :
  assemble s row = Done (Some rec) ->
  raw_price s row = Some (price_avg rec) /\ unit_ rec = raw_unit s row.
Proof. intros H. destruct s; assemble_inv H; done. Qed.

(** A row with a positive price is never skipped. *)
Lemma positive_price_not_skipped s row p :
  raw_price s row = Some p -> PyNum.is_positive p = true ->
  assemble s row <> Done None.
Proof.
  intros Hp Hpos H.
  destruct (is_positive_number p Hpos) as (Hn & Hz & Hle).
  destruct s; simpl in Hp;
    unfold assemble, MN.assemble, WV.assemble, CA.assemble,
      USFS_PNW.assemble in H;
    rewrite Hp, ?Hn, ?Hz, ?Hle in H; simpl in H;
    unfold mbind, outcome_bind, py_int, py_str in H;
    repeat case_match; simplify_eq.
Qed.

(** The two conversions of the MN chain and of the WV chain. *)
Lemma mn_conversion_for unit :
  MN.conversion_for unit
  = if String.eqb unit "$/cord" then Some (PyNum.nearest 2.3)
    else if String.eqb unit "$/MBF" then Some (PyNum.nearest 4)
    else None.
Proof. reflexivity. Qed.

Lemma wv_conversion_for unit :
  WV.conversion_for unit
  = if String.eqb unit "$/MBF" then Some (PyNum.nearest 5)
    else if String.eqb unit "$/Cord" then Some (PyNum.nearest 2.5)
    else None.
Proof. reflexivity. Qed.

(** What a record carries in [price_per_ton] and [conversion_factor], by
    the unit it is quoted in. *)
Lemma assembled_conversion s row rec :
  assemble s row = Done (Some rec) ->
  (forall factor, (unit_ rec, factor) ∈ unit_factors s ->
     price_per_ton rec
     = (if null_when_zero s
           && PyNum.is_zero (PyNum.div (price_avg rec) factor)
        then None
        else Some (PyNum.round2 (PyNum.div (price_avg rec) factor)))
     /\ conversion_factor rec = Some factor)
  /\ (unit_ rec ∉ (unit_factors s).*1 ->
      price_per_ton rec = None /\ conversion_factor rec = None).
Proof.
  intros H. destruct s; assemble_inv H;
    cbn [unit_ price_per_ton conversion_factor price_avg unit_factors
         null_when_zero andb];
    rewrite ?mn_conversion_for, ?wv_conversion_for;
    (split; [intros factor Hin|intros Hnot]).
  all: try (repeat (apply elem_of_cons in Hin as [Hin|Hin];
                    [apply pair_eq in Hin as [Hu ->]; rewrite ?Hu; simpl;
                     unfold PyNum.truthy;
                     try destruct (PyNum.is_zero (PyNum.div _ _));
                     simpl; done|]);
            by apply elem_of_nil in Hin).
  all: repeat match goal with
       | |- context [String.eqb ?u ?l] =>
           destruct (String.eqb_spec u l) as [E|_];
           [exfalso; apply Hnot; rewrite E; simpl;
            repeat first [by left | right]|]
       end;
       first [by simpl | exfalso; apply Hnot; simpl; by left].
Qed.

(** ** Unit conversion *)

Example mn_rows_transformed :
  MN.transform_to_unified Sample.mn_rows = Done Sample.mn_records.
Proof. vm_compute. reflexivity. Qed.

(** Division and rounding are those of floats: 61.14 / 4.0 lies above
    15.285 and is rounded to 15.29; the smallest positive float divided by
    2.3 is zero, and the MN script writes no price per ton for it. *)
Example mn_ash_transformed :
  MN.transform_to_unified [Sample.mn_ash_row]
  = Done [ Sample.mn_record 2020 "Ash" "sawtimber" 61.14 "$/MBF"
             (Some 15.29%Q) (Some 4%Q) ].
Proof. vm_compute. reflexivity. Qed.

Example mn_tiny_transformed :
  exists rec,
    MN.transform_to_unified [Sample.mn_tiny_row] = Done [rec]
    /\ unit_ rec = "$/cord"
    /\ price_per_ton rec = None
    /\ conversion_factor rec = Some (PyNum.nearest 2.3).
Proof. eexists. repeat split; vm_compute; reflexivity. Qed.

(** C4, as the scripts have it.
    The units with a conversion are "$/cord" (2.3) and "$/MBF" (4.0) in MN,
    "$/MBF" (5.0) and "$/Cord" (2.5) in WV; the CA and WA_OR scripts write
    "$/MBF" and divide by 4.0.  A record in such a unit carries the factor
    and, as [price_per_ton], the float quotient of [price_avg] by the factor
    rounded to two decimals -- in MN and WV null when the quotient is zero;
    a record in any other unit carries null in both.  A row with a positive
    price yields a record whatever its unit. *)
Theorem C4_unit_conversion s df out :
  transform_to_unified s df = Done out ->
  (forall rec, rec ∈ out ->
     (forall factor, (unit_ rec, factor) ∈ unit_factors s ->
        price_per_ton rec
        = (if null_when_zero s
              && PyNum.is_zero (PyNum.div (price_avg rec) factor)
           then None
           else Some (PyNum.round2 (PyNum.div (price_avg rec) factor)))
        /\ conversion_factor rec = Some factor)
     /\ (unit_ rec ∉ (unit_factors s).*1 ->
         price_per_ton rec = None /\ conversion_factor rec = None))
  /\ (forall row p, row ∈ df -> raw_price s row = Some p ->
       PyNum.is_positive p = true ->
       exists rec, rec ∈ out /\ unit_ rec = raw_unit s row
                   /\ price_avg rec = p).
Proof.
  intros Hout. split.
  - intros rec (row & _ & Hrow)%(elem_of_transform s df out); [|done].
    by apply (assembled_conversion s row).
  - intros row p Hin Hp Hpos.
    pose proof Hout as Hall.
    rewrite transform_iterrows in Hall.
    apply iterrows_Done_Forall in Hall.
    rewrite list.Forall_forall in Hall.
    destruct (Hall row Hin) as [[rec|] Hrow].
    + exists rec. destruct (assembled_price s row rec Hrow) as [Hprice Hunit].
      split; [apply (elem_of_transform s df out); eauto|].
      split; [done|]. congruence.
    + by apply (positive_price_not_skipped s row p) in Hrow.
Qed.

Lemma C4_unit_conversion_witness :
  transform_to_unified mn_forest_resources Sample.mn_rows
  = Done Sample.mn_records
  /\ (forall rec, rec ∈ Sample.mn_records ->
       (forall factor,
          (unit_ rec, factor) ∈ unit_factors mn_forest_resources ->
          price_per_ton rec
          = (if null_when_zero mn_forest_resources
                && PyNum.is_zero (PyNum.div (price_avg rec) factor)
             then None
             else Some (PyNum.round2 (PyNum.div (price_avg rec) factor)))
          /\ conversion_factor rec = Some factor)
       /\ (unit_ rec ∉ (unit_factors mn_forest_resources).*1 ->
           price_per_ton rec = None /\ conversion_factor rec = None)).
Proof.
  split; [vm_compute; reflexivity|].
  apply (C4_unit_conversion mn_forest_resources Sample.mn_rows).
  vm_compute; reflexivity.
Defined.

(** Against the specification: "$/ton" and "$/Standard Cord" are units of
    its recognised set, yet an MN price per ton and a WV price per standard
    cord are stored without price per ton and without factor; and "$/Cord",
    which the WV script converts, is no unit of the MN script. *)
Lemma C4_counterexample :
  "$/ton" ∈ spec_recognised_units
  /\ "$/Standard Cord" ∈ spec_recognised_units
  /\ (exists rec,
        MN.transform_to_unified [Sample.mn_per_ton_row] = Done [rec]
        /\ unit_ rec = "$/ton"
        /\ price_per_ton rec = None /\ conversion_factor rec = None)
  /\ (exists rec,
        WV.transform_to_unified [Sample.wv_standard_cord_row] = Done [rec]
        /\ unit_ rec = "$/Standard Cord"
        /\ price_per_ton rec = None /\ conversion_factor rec = None)
  /\ MN.conversion_for "$/Cord" = None.
Proof.
  split; [apply (bool_decide_unpack _); vm_compute; exact I|].
  split; [apply (bool_decide_unpack _); vm_compute; exact I|].
  split; [eexists; repeat split; vm_compute; reflexivity|].
  split; [eexists; repeat split; vm_compute; reflexivity|].
  reflexivity.
Qed.

(** ** Rows without a usable price *)

Lemma is_zero_nonpositive p :
  PyNum.is_zero p = true -> PyNum.is_nonpositive p = true.
Proof. destruct p as [[]|[]| |[] m e]; vm_compute; done. Qed.

Lemma is_negative_nonpositive p :
  PyNum.is_negative p = true -> PyNum.is_nonpositive p = true.
Proof. destruct p as [[]|[]| |[] m e]; vm_compute; done. Qed.

(** The guard at the top of each loop body. *)
Lemma skipped_iff s row :
  assemble s row = Done None <->
  match raw_price s row with
  | None => True
  | Some p =>
      PyNum.is_nan p = true
      \/ match s with
         | mn_forest_resources | wv_forestry => PyNum.is_zero p = true
         | ca_cdtfa => False
         | usfs_pnw_species => PyNum.is_nonpositive p = true
         end
  end.
Proof.
  destruct s; simpl;
    unfold MN.assemble, WV.assemble, CA.assemble, USFS_PNW.assemble,
      mbind, outcome_bind, py_int, py_str;
    repeat case_match; simplify_eq;
    repeat match goal with
           | H : _ || _ = true |- _ => apply orb_prop in H
           | H : _ || _ = false |- _ => apply orb_false_elim in H as [? ?]
           end;
    (split; [intros Hd; try done; tauto
            |intros Hr; try done; destruct Hr; first [congruence|done]]).
Qed.

(** Two parsed files that transform to the same frame lead to the same
    run. *)
Lemma main_raw_csv_irrelevant s w df df' :
  transform_to_unified s df = transform_to_unified s df' ->
  observable (run (main s) (with_raw_csv w df))
  = observable (run (main s) (with_raw_csv w df')).
Proof.
  intros Heq. rewrite main_integrate.
  unfold observable, run, integrate, mbind, script_bind, read_raw_csv, lift,
    read_unified_csv, show_summary, to_csv, with_raw_csv.
  simpl. rewrite Heq.
  destruct (transform_to_unified s df') as [rows|e]; [|done].
  destruct (deduplicate s rows) as [|r batch]; [done|].
  simpl. unfold mret, script_ret.
  destruct (unified_csv w) as [existing|]; [|done].
  by destruct (dataset_check s existing) as [[]|e].
Qed.

(** C5, as the scripts have it.
    A row whose price is missing is skipped by every
    script, a row with price zero by every script but CA, a row with a
    negative price by the WA_OR script: the loop body says [continue] before
    it touches any other cell, the transformed frame is the one obtained
    without the row (the other rows keeping their cells as they are), and
    so is everything the run leaves behind. *)
Theorem C5_unusable_rows_skipped s df1 row df2 :
  raw_price s row = None
  \/ (exists p, raw_price s row = Some p /\ PyNum.is_nan p = true)
  \/ (s <> ca_cdtfa
      /\ exists p, raw_price s row = Some p /\ PyNum.is_zero p = true)
  \/ (s = usfs_pnw_species
      /\ exists p, raw_price s row = Some p /\ PyNum.is_negative p = true) ->
  assemble s row = Done None
  /\ transform_to_unified s (df1 ++ row :: df2)
     = transform_to_unified s (df1 ++ df2)
  /\ (forall w,
        observable (run (main s) (with_raw_csv w (df1 ++ row :: df2)))
        = observable (run (main s) (with_raw_csv w (df1 ++ df2)))).
Proof.
  intros Hrow.
  assert (assemble s row = Done None) as Hskip.
  { apply skipped_iff.
    destruct Hrow as [->|[(p & -> & Hp)|[(Hs & p & -> & Hp)|(-> & p & -> & Hp)]]];
      [done|by left| |right; by apply is_negative_nonpositive].
    right. destruct s; try done. by apply is_zero_nonpositive. }
  assert (transform_to_unified s (df1 ++ row :: df2)
          = transform_to_unified s (df1 ++ df2)) as Heq.
  { rewrite !transform_iterrows. by apply iterrows_skip. }
  split; [done|]. split; [done|].
  intros w. by apply main_raw_csv_irrelevant.
Qed.

Lemma C5_unusable_rows_skipped_witness :
  raw_price wv_forestry Sample.wv_nan_row = None
  /\ assemble wv_forestry Sample.wv_nan_row = Done None
  /\ transform_to_unified wv_forestry
       ([Sample.wv_disordered_row] ++ Sample.wv_nan_row :: [])
     = transform_to_unified wv_forestry ([Sample.wv_disordered_row] ++ []).
Proof.
  split; [reflexivity|].
  destruct (C5_unusable_rows_skipped wv_forestry
              [Sample.wv_disordered_row] Sample.wv_nan_row [])
    as (H1 & H2 & _).
  - left. reflexivity.
  - split; assumption.
Defined.

(** Against the specification: the MN script keeps a row with a negative
    price and the CA script a row with price zero. *)
Lemma C5_counterexample :
  (exists rec, MN.transform_to_unified [Sample.mn_negative_row] = Done [rec]
               /\ PyNum.is_negative (price_avg rec) = true)
  /\ (exists rec, CA.transform_to_unified [Sample.ca_zero_row] = Done [rec]
                  /\ PyNum.is_zero (price_avg rec) = true).
Proof.
  split; eexists; (split; [vm_compute; reflexivity|vm_compute; reflexivity]).
Qed.

(** ** Labels without a table entry *)

Lemma map_chars_compose f g s :
  PyStr.map_chars f (PyStr.map_chars g s) = PyStr.map_chars (fun c => f (g c)) s.
Proof. induction s as [|c s IH]; simpl; by rewrite ?IH. Qed.

Lemma map_chars_ext f g s :
  (forall c, f c = g c) -> PyStr.map_chars f s = PyStr.map_chars g s.
Proof. intros Hfg. induction s as [|c s IH]; simpl; by rewrite ?Hfg, ?IH. Qed.

Lemma wv_fallback_char c :
  (if Ascii.eqb (PyStr.lower_ascii c) " " then "_"%char else PyStr.lower_ascii c)
  = underscore_or_lower [" "%char] c.
Proof.
  destruct c as [[] [] [] [] [] [] [] []]; vm_compute; reflexivity.
Qed.

Lemma ca_fallback_char c :
  (let c' := if Ascii.eqb (PyStr.lower_ascii c) " " then "_"%char
             else PyStr.lower_ascii c in
   if Ascii.eqb c' "-" then "_"%char else c')
  = underscore_or_lower [" "%char; "-"%char] c.
Proof.
  destruct c as [[] [] [] [] [] [] [] []]; vm_compute; reflexivity.
Qed.

(** C8, as the scripts have it.
    For a label without entry in the script's species
    table the token is: in CA the label lower-cased with spaces and hyphens
    turned into underscores, in WV the label lower-cased with spaces turned
    into underscores, in MN and WA_OR the label itself. *)
Theorem C8_fallback_token s label :
  species_map s !! label = None ->
  standardize_species s label = fallback_token s label.
Proof.
  intros Hnone. destruct s; simpl in *; [done| | |].
  - unfold WV.standardize_species. rewrite Hnone. simpl.
    unfold PyStr.replace, PyStr.lower. rewrite map_chars_compose.
    apply map_chars_ext, wv_fallback_char.
  - unfold CA.standardize_species. rewrite Hnone. simpl.
    unfold PyStr.replace, PyStr.lower. rewrite !map_chars_compose.
    apply map_chars_ext, ca_fallback_char.
  - unfold USFS_PNW.standardize_species. by rewrite Hnone.
Qed.

Lemma C8_fallback_token_witness :
  species_map ca_cdtfa !! "Sugar Pine-Fir" = None
  /\ standardize_species ca_cdtfa "Sugar Pine-Fir" = "sugar_pine_fir".
Proof.
  split; [vm_compute; reflexivity|].
  rewrite (C8_fallback_token ca_cdtfa "Sugar Pine-Fir");
    vm_compute; reflexivity.
Defined.

(** Against the specification: the WV script leaves the hyphen of a label
    in place, the WA_OR script leaves the whole label as it is, and the CA
    script replaces the space character only, not a tab. *)
Lemma C8_counterexample :
  species_map wv_forestry !! "Sugar-Maple" = None
  /\ standardize_species wv_forestry "Sugar-Maple" = "sugar-maple"
  /\ spec_fallback_token "Sugar-Maple" = "sugar_maple"
  /\ species_map usfs_pnw_species !! "Red Alder" = None
  /\ standardize_species usfs_pnw_species "Red Alder" = "Red Alder"
  /\ spec_fallback_token "Red Alder" = "red_alder".
Proof. repeat split; vm_compute; reflexivity. Qed.

(** Where the scripts and the specification's wording agree. *)
Lemma map_chars_ext_in f g s :
  (forall c, PyStr.contains (String c EmptyString) s = true -> f c = g c) ->
  PyStr.map_chars f s = PyStr.map_chars g s.
Proof.
  induction s as [|a s IH]; intros Hfg; [done|].
  simpl. rewrite Hfg, IH; [done| |].
  - intros c Hc. apply Hfg. simpl.
    destruct (Ascii.ascii_dec c a); [by destruct s|done].
  - simpl. destruct (Ascii.ascii_dec a a); [by destruct s|done].
Qed.

Lemma wv_char_agree c :
  (PyStr.is_space c = true \/ c = "-"%char -> c = " "%char) ->
  underscore_or_lower [" "%char] c
  = (if PyStr.is_space c || Ascii.eqb c "-" then "_"%char
     else PyStr.lower_ascii c).
Proof.
  destruct c as [[] [] [] [] [] [] [] []]; intros H;
    try (vm_compute; reflexivity);
    first [discriminate (H (or_introl eq_refl))
          |discriminate (H (or_intror eq_refl))].
Qed.

Lemma ca_char_agree c :
  (PyStr.is_space c = true -> c = " "%char) ->
  underscore_or_lower [" "%char; "-"%char] c
  = (if PyStr.is_space c || Ascii.eqb c "-" then "_"%char
     else PyStr.lower_ascii c).
Proof.
  destruct c as [[] [] [] [] [] [] [] []]; intros H;
    try (vm_compute; reflexivity); discriminate (H eq_refl).
Qed.

(** In WV the two agree on labels whose only separator is the space. *)
Lemma wv_fallback_token_spec label :
  (forall c, PyStr.contains (String c EmptyString) label = true ->
             PyStr.is_space c = true \/ c = "-"%char -> c = " "%char) ->
  fallback_token wv_forestry label = spec_fallback_token label.
Proof.
  intros H. apply map_chars_ext_in. intros c Hc. apply wv_char_agree; auto.
Qed.

(** In CA they agree on labels whose only whitespace is the space. *)
Lemma ca_fallback_token_spec label :
  (forall c, PyStr.contains (String c EmptyString) label = true ->
             PyStr.is_space c = true -> c = " "%char) ->
  fallback_token ca_cdtfa label = spec_fallback_token label.
Proof.
  intros H. apply map_chars_ext_in. intros c Hc. apply ca_char_agree; auto.
Qed.

(** ** Price ranges *)

Lemma assembled_price_range s row rec :
  assemble s row = Done (Some rec) ->
  price_low rec = raw_price_low s row /\ price_high rec = raw_price_high s row.
Proof. intros H. destruct s; assemble_inv H; done. Qed.

(** C9, as the scripts have it.
    No script compares [price_low], [price_avg] and
    [price_high]: every transformed record carries the [price_low] and
    [price_high] cells of its WV input row as they are, and null for both in
    MN, CA and WA_OR; and every row with a positive price is stored with
    them, ordered or not. *)
Theorem C9_price_range_copied s df out :
  transform_to_unified s df = Done out ->
  (forall rec, rec ∈ out ->
     exists row, row ∈ df /\ raw_price s row = Some (price_avg rec)
       /\ price_low rec = raw_price_low s row
       /\ price_high rec = raw_price_high s row)
  /\ (forall row p, row ∈ df -> raw_price s row = Some p ->
       PyNum.is_positive p = true ->
       exists rec, rec ∈ out /\ price_avg rec = p
         /\ price_low rec = raw_price_low s row
         /\ price_high rec = raw_price_high s row).
Proof.
  intros Hout. split.
  - intros rec (row & Hin & Hrow)%(elem_of_transform s df out); [|done].
    exists row. split; [done|]. split; [by apply assembled_price|].
    by apply assembled_price_range.
  - intros row p Hin Hp Hpos.
    pose proof Hout as Hall.
    rewrite transform_iterrows in Hall.
    apply iterrows_Done_Forall in Hall.
    rewrite list.Forall_forall in Hall.
    destruct (Hall row Hin) as [[rec|] Hrow].
    + exists rec. destruct (assembled_price s row rec Hrow) as [Hprice _].
      split; [apply (elem_of_transform s df out); eauto|].
      split; [congruence|]. by apply assembled_price_range.
    + by apply (positive_price_not_skipped s row p) in Hrow.
Qed.

Lemma C9_price_range_copied_witness :
  transform_to_unified wv_forestry [Sample.wv_disordered_row]
  = Done [Sample.wv_disordered_record]
  /\ (forall rec, rec ∈ [Sample.wv_disordered_record] ->
       exists row, row ∈ [Sample.wv_disordered_row]
         /\ raw_price wv_forestry row = Some (price_avg rec)
         /\ price_low rec = raw_price_low wv_forestry row
         /\ price_high rec = raw_price_high wv_forestry row).
Proof.
  split; [vm_compute; reflexivity|].
  apply (C9_price_range_copied wv_forestry [Sample.wv_disordered_row]).
  vm_compute; reflexivity.
Defined.

(** Against the specification: the WV run writes a row whose low price is
    above its average and whose high price is below it. *)
Lemma C9_counterexample :
  run WV.main Sample.wv_disordered_world
  = (Done tt,
     after_write Sample.wv_disordered_world [Sample.wv_disordered_record])
  /\ price_low Sample.wv_disordered_record = Some (PyNum.nearest 100)
  /\ price_avg Sample.wv_disordered_record = PyNum.nearest 50
  /\ price_high Sample.wv_disordered_record = Some (PyNum.nearest 10)
  /\ PyNum.leb (PyNum.nearest 100) (PyNum.nearest 50) = false
  /\ PyNum.leb (PyNum.nearest 50) (PyNum.nearest 10) = false.
Proof.
  split; [vm_compute; reflexivity|].
  repeat split; vm_compute; reflexivity.
Qed.

(** ** An unreadable dataset *)

(** C7.  When the unified dataset cannot be read the run raises and leaves
    the files as they were: nothing is passed to [to_csv], and the run does
    not go on with an empty dataset. *)
Theorem C7_unreadable_dataset_aborts s w :
  unified_csv w = None ->
  exists e, run (main s) w = (Raised e, w).
Proof. rewrite main_integrate. apply integrate_unreadable. Qed.

Lemma C7_unreadable_dataset_aborts_witness :
  unified_csv Sample.mn_unreadable_world = None
  /\ exists e, run (main mn_forest_resources) Sample.mn_unreadable_world
               = (Raised e, Sample.mn_unreadable_world).
Proof.
  split; [reflexivity|].
  apply (C7_unreadable_dataset_aborts mn_forest_resources).
  reflexivity.
Defined.

(** Whatever makes a run raise, the files are as before. *)
Lemma main_Raised s w e w' : run (main s) w = (Raised e, w') -> w' = w.
Proof. rewrite main_integrate. apply integrate_Raised. Qed.

(** A run writes at most once, and only as its last step. *)
Lemma main_writes_once s w o w' :
  run (main s) w = (o, w') ->
  to_csv_log w' = to_csv_log w
  \/ exists out, to_csv_log w' = to_csv_log w ++ [out]
                 /\ unified_csv w' = Some out /\ o = Done tt.
Proof.
  destruct o as [[]|e].
  - intros (df & rows & existing & _ & _ & _ & _ & _ & ->)%main_Done_inv.
    right. by eexists.
  - intros ->%main_Raised. by left.
Qed.

(** ** Deduplication of a batch *)

Lemma assembled_key_fields s row rec :
  assemble s row = Done (Some rec) ->
  quarter rec = None
  /\ (s = mn_forest_resources -> region rec = "Statewide")
  /\ (s = usfs_pnw_species -> product_type rec = "sawtimber").
Proof. intros H. destruct s; assemble_inv H; done. Qed.

(** On the records a script assembles, its subset columns identify the
    same rows as [dedup_key]. *)
Lemma deduplicate_dedup_key s rows :
  (forall rec, rec ∈ rows -> exists row, assemble s row = Done (Some rec)) ->
  deduplicate s rows = Pandas.drop_duplicates_last (dedup_key s) rows.
Proof.
  intros Hasm.
  assert (forall r1 r2, r1 ∈ rows -> r2 ∈ rows ->
            quarter r1 = quarter r2
            /\ (s = mn_forest_resources -> region r1 = region r2)
            /\ (s = usfs_pnw_species -> product_type r1 = product_type r2))
    as Hsame.
  { intros r1 r2 [row1 H1]%Hasm [row2 H2]%Hasm.
    destruct (assembled_key_fields s row1 r1 H1) as (Hq1 & Hr1 & Hp1).
    destruct (assembled_key_fields s row2 r2 H2) as (Hq2 & Hr2 & Hp2).
    split; [congruence|].
    split; intros Hs; [rewrite Hr1, Hr2|rewrite Hp1, Hp2]; done. }
  destruct s; simpl; apply drop_duplicates_last_ext; intros r1 r2 Hr1 Hr2;
    destruct (Hsame r1 r2 Hr1 Hr2) as (Hq & Hreg & Hprod);
    unfold MN.subset, WV.subset, CA.subset, USFS_PNW.subset, dedup_key,
      composite_key;
    try specialize (Hreg eq_refl); try specialize (Hprod eq_refl);
    (split; intros [=]; congruence).
Qed.

Lemma transformed_assembled s df rows :
  transform_to_unified s df = Done rows ->
  forall rec, rec ∈ rows -> exists row, assemble s row = Done (Some rec).
Proof.
  intros Hrows rec (row & _ & Hrow)%(elem_of_transform s df rows); eauto.
Qed.

Lemma deduplicate_NoDup s df rows :
  transform_to_unified s df = Done rows ->
  NoDup (dedup_key s <$> deduplicate s rows).
Proof.
  intros Hrows.
  rewrite (deduplicate_dedup_key s rows) by by eapply transformed_assembled.
  apply drop_duplicates_last_NoDup.
Qed.

(** C2, as the scripts have it.
    The [drop_duplicates] call of a script keeps, of the
    records it assembled, exactly one per composite key -- in CA one per
    composite key and [notes] -- and the one kept is the last occurrence in
    input order; the records kept stay in input order. *)
Theorem C2_dedup_last_wins s df rows :
  transform_to_unified s df = Done rows ->
  NoDup (dedup_key s <$> deduplicate s rows)
  /\ (forall k, k ∈ dedup_key s <$> deduplicate s rows
                <-> k ∈ dedup_key s <$> rows)
  /\ (forall r, r ∈ deduplicate s rows <->
       exists before after,
         rows = before ++ r :: after
         /\ dedup_key s r ∉ dedup_key s <$> after)
  /\ deduplicate s rows `sublist_of` rows.
Proof.
  intros Hrows.
  rewrite (deduplicate_dedup_key s rows) by by eapply transformed_assembled.
  split; [apply drop_duplicates_last_NoDup|].
  split; [intros k; apply drop_duplicates_last_keys|].
  split; [intros r; apply elem_of_drop_duplicates_last|].
  apply drop_duplicates_last_sublist.
Qed.

Example mn_duplicates_last_wins :
  deduplicate mn_forest_resources Sample.mn_duplicate_records
  = [Sample.mn_record 2022 "Pine" "sawtimber" 32 "$/ton" None None].
Proof. vm_compute. reflexivity. Qed.

Lemma C2_dedup_last_wins_witness :
  transform_to_unified mn_forest_resources Sample.mn_duplicate_rows
  = Done Sample.mn_duplicate_records
  /\ NoDup (dedup_key mn_forest_resources
            <$> deduplicate mn_forest_resources Sample.mn_duplicate_records).
Proof.
  split; [vm_compute; reflexivity|].
  apply (C2_dedup_last_wins mn_forest_resources Sample.mn_duplicate_rows).
  vm_compute; reflexivity.
Defined.

(** Against the specification: the two halves of a CA year have the same
    composite key and both survive the CA script's [drop_duplicates]. *)
Lemma C2_counterexample :
  CA.transform_to_unified Sample.ca_half_rows = Done Sample.ca_half_records
  /\ (composite_key <$> Sample.ca_half_records
      = [("CA", 2020%Z, None, "redwood", "TVA_1", "sawtimber_green");
         ("CA", 2020%Z, None, "redwood", "TVA_1", "sawtimber_green")])
  /\ Pandas.drop_duplicates_last CA.subset Sample.ca_half_records
     = Sample.ca_half_records.
Proof. repeat split; vm_compute; reflexivity. Qed.

(** Outside CA the composite key alone tells the batch apart. *)
Lemma dedup_key_composite s (l : list CanonicalRecord) :
  s <> ca_cdtfa ->
  NoDup (dedup_key s <$> l) -> NoDup (composite_key <$> l).
Proof.
  intros Hs Hnd.
  assert (dedup_key s <$> l = (fun k => (k, None)) <$> (composite_key <$> l))
    as Heq.
  { rewrite <- list_fmap_compose. apply list_fmap_ext.
    intros _ r _. by destruct s. }
  rewrite Heq in Hnd. by apply NoDup_fmap_1 in Hnd.
Qed.

(** ** Key uniqueness of the written dataset *)

Lemma assembled_year s row rec :
  assemble s row = Done (Some rec) -> raw_year s row = Some (year rec).
Proof. intros H. destruct s; assemble_inv H; done. Qed.

(** Outside CA the rows a script removes are selected by columns of the
    composite key. *)
Lemma replaced_composite_key s r1 r2 :
  s <> ca_cdtfa -> composite_key r1 = composite_key r2 ->
  replaced s r1 -> replaced s r2.
Proof.
  intros Hs [= Hsrc Hyear _ _ _ _].
  destruct s; simpl; unfold MN.replaced; try done; congruence.
Qed.

Lemma NoDup_composite_key_append (s : integration)
    (existing batch : list CanonicalRecord) :
  s <> ca_cdtfa ->
  NoDup (composite_key <$> existing) ->
  NoDup (composite_key <$> batch) ->
  (forall r, r ∈ batch -> replaced s r) ->
  NoDup (composite_key
         <$> Pandas.sort_values
               (filter (fun r => ¬ replaced s r) existing ++ batch)).
Proof.
  intros Hs Hex Hb Hrep.
  rewrite sort_values_perm, fmap_app. apply NoDup_app.
  split; [|split; [|done]].
  - eapply sublist_NoDup; [exact Hex|apply fmap_sublist, sublist_filter].
  - intros k (r1 & -> & [Hr1 _]%list_elem_of_filter)%list_elem_of_fmap
             (r2 & Hk & Hr2)%list_elem_of_fmap.
    apply Hr1. apply (replaced_composite_key s r2 r1); auto.
Qed.

(** C1, as the scripts have it.
    A WV or WA_OR run, and an MN run whose parsed file has
    no year before 2013, writes a dataset without two rows of the same
    composite key whenever the dataset it read had none. *)
Theorem C1_key_uniqueness s w w' existing :
  s <> ca_cdtfa ->
  unified_csv w = Some existing ->
  NoDup (composite_key <$> existing) ->
  (s = mn_forest_resources ->
   forall df row y, raw_csv w = Some df -> row ∈ df ->
                    raw_year s row = Some y -> (2013 <= y)%Z) ->
  run (main s) w = (Done tt, w') ->
  exists out, unified_csv w' = Some out /\ NoDup (composite_key <$> out).
Proof.
  intros Hs Hex Hnd Hyears
    (df & rows & existing' & Hraw & Hrows & _ & Hex' & Hck & ->)%main_Done_inv.
  assert (existing' = existing) as -> by congruence.
  eexists. split; [done|].
  apply (NoDup_composite_key_append s); [done..| |].
  - apply (dedup_key_composite s); [done|].
    by apply (deduplicate_NoDup s df rows).
  - intros r Hr.
    assert (r ∈ rows) as Hin.
    { destruct s; simpl in Hr; by apply drop_duplicates_last_subseteq in Hr. }
    apply (elem_of_transform s df rows) in Hin as (row & Hrow & Hasm); [|done].
    destruct (assembled_source s row r Hasm) as [Hsrc _].
    pose proof (assembled_year s row r Hasm) as Hy.
    destruct s; simpl in *; try done.
    split; [done|]. by apply (Hyears eq_refl df row).
Qed.

Lemma C1_key_uniqueness_witness :
  unified_csv Sample.wv_world
  = Some [ Sample.other_record "WV" 2019 40;
           Sample.other_record "TX" 2019 35 ]
  /\ run (main wv_forestry) Sample.wv_world
     = (Done tt, after_write Sample.wv_world Sample.wv_written)
  /\ exists out, unified_csv (after_write Sample.wv_world Sample.wv_written)
                 = Some out
                 /\ NoDup (composite_key <$> out).
Proof.
  split; [reflexivity|]. split; [vm_compute; reflexivity|].
  apply (C1_key_uniqueness wv_forestry Sample.wv_world _
           [ Sample.other_record "WV" 2019 40;
             Sample.other_record "TX" 2019 35 ]).
  - discriminate.
  - reflexivity.
  - apply (bool_decide_unpack _). vm_compute. exact I.
  - discriminate.
  - vm_compute. reflexivity.
Defined.

(** Against the specification: the MN run appends its 2012 row to a dataset
    that keeps its own 2012 row, and the two share the composite key. *)
Lemma C1_counterexample :
  NoDup (composite_key <$> Sample.mn_2012_existing)
  /\ run MN.main Sample.mn_2012_world
     = (Done tt, after_write Sample.mn_2012_world Sample.mn_2012_written)
  /\ composite_key <$> Sample.mn_2012_written
     = [ ("MN", 2012%Z, None, "Aspen", "Statewide", "cordwood");
         ("MN", 2012%Z, None, "Aspen", "Statewide", "cordwood") ]
  /\ ¬ NoDup (composite_key <$> Sample.mn_2012_written).
Proof.
  split; [apply (bool_decide_unpack _); vm_compute; exact I|].
  split; [vm_compute; reflexivity|].
  split; [vm_compute; reflexivity|].
  apply (bool_decide_unpack _). vm_compute. exact I.
Qed.

(** ** Replacing the rows of a source *)

Lemma assembled_replaced s row rec :
  s <> mn_forest_resources ->
  assemble s row = Done (Some rec) -> replaced s rec.
Proof. intros Hs H. destruct s; assemble_inv H; done. Qed.

Lemma batch_assembled s df rows rec :
  transform_to_unified s df = Done rows ->
  rec ∈ deduplicate s rows ->
  exists row, row ∈ df /\ assemble s row = Done (Some rec).
Proof.
  intros Hrows Hrec. apply (elem_of_transform s df rows); [done|].
  destruct s; simpl in Hrec; by apply drop_duplicates_last_subseteq in Hrec.
Qed.

Lemma filter_all {A} (P : A -> Prop) `{!forall x, Decision (P x)}
    (l : list A) :
  (forall x, x ∈ l -> P x) -> filter P l = l.
Proof.
  induction l as [|x l IH]; intros Hall; [done|].
  rewrite filter_cons, decide_True by (apply Hall; by left).
  f_equal. apply IH. intros y Hy. apply Hall. by right.
Qed.

Lemma filter_none {A} (P : A -> Prop) `{!forall x, Decision (P x)}
    (l : list A) :
  (forall x, x ∈ l -> ¬ P x) -> filter P l = [].
Proof.
  induction l as [|x l IH]; intros Hall; [done|].
  rewrite filter_cons, decide_False by (apply Hall; by left).
  apply IH. intros y Hy. apply Hall. by right.
Qed.

(** The rows of a batch are rows of the script's own source. *)
Lemma batch_source s df rows r :
  transform_to_unified s df = Done rows ->
  r ∈ deduplicate s rows -> source r = source_code s.
Proof.
  intros Hrows (row & _ & Hasm)%(batch_assembled s df rows); [|done].
  by apply (assembled_source s row).
Qed.

(** A run of the CA script that meets CA rows of its own series and of
    another one. *)
Example ca_series_run :
  run CA.main Sample.ca_series_world
  = (Done tt, after_write Sample.ca_series_world Sample.ca_written).
Proof. vm_compute. reflexivity. Qed.

(** C3, as the scripts have it.
    A WV or WA_OR run that writes the dataset has removed exactly the
    existing rows whose [source] is its own and appended the batch:
    afterwards the dataset has no row of that source outside the batch and
    every existing row of another source is still there.  A CA run that
    writes the dataset has removed the existing CA rows whose [notes]
    contain "CDTFA" and appended the batch: the CA rows of another series
    stay, as does every row whose notes do not mention "CDTFA". *)
Theorem C3_replace_then_append s w w' :
  s <> mn_forest_resources ->
  run (main s) w = (Done tt, w') ->
  exists df rows existing out,
    raw_csv w = Some df /\ transform_to_unified s df = Done rows
    /\ unified_csv w = Some existing /\ unified_csv w' = Some out
    /\ (forall r, r ∈ deduplicate s rows -> source r = source_code s)
    /\ (full_replace s ->
        out ≡ₚ filter (fun r => source r <> source_code s) existing
               ++ deduplicate s rows
        /\ (forall r, r ∈ out -> source r = source_code s ->
                      r ∈ deduplicate s rows)
        /\ (forall r, r ∈ existing -> source r <> source_code s -> r ∈ out))
    /\ (s = ca_cdtfa ->
        filter (fun r => source r = "CA") out
        ≡ₚ filter (fun r => source r = "CA"
                            /\ CA.notes_contain_CDTFA r <> true) existing
           ++ deduplicate s rows
        /\ (forall r, r ∈ existing -> CA.notes_contain_CDTFA r <> true ->
                      r ∈ out)).
Proof.
  intros Hs (df & rows & existing & Hraw & Hrows & _ & Hex & _ & ->)
    %main_Done_inv.
  exists df, rows, existing. eexists.
  do 4 (split; [done|]).
  split; [intros r; by apply (batch_source s df rows)|].
  split.
  - intros Hfull.
    assert (forall r, ¬ replaced s r <-> source r <> source_code s) as Hiff.
    { by destruct Hfull as [-> | ->]. }
    rewrite (list_filter_iff _ _ existing Hiff).
    split; [apply sort_values_perm|]. split.
    + intros r Hr Hsrc.
      apply elem_of_sort_values, elem_of_app in Hr as [Hr|Hr]; [|done].
      by apply list_elem_of_filter in Hr as [Hr _].
    + intros r Hr Hsrc. apply elem_of_sort_values, elem_of_app. left.
      by apply list_elem_of_filter.
  - intros ->. simpl. split.
    + rewrite sort_values_perm, filter_app, list_filter_filter.
      rewrite (filter_all _ (Pandas.drop_duplicates_last _ rows))
        by (intros r; apply (batch_source ca_cdtfa df rows r Hrows)).
      done.
    + intros r Hr Hnotes. apply elem_of_sort_values, elem_of_app. left.
      by apply list_elem_of_filter.
Qed.

Lemma C3_replace_then_append_witness :
  run (main wv_forestry) Sample.wv_world
  = (Done tt, after_write Sample.wv_world Sample.wv_written)
  /\ exists df rows existing out,
       raw_csv Sample.wv_world = Some df
       /\ transform_to_unified wv_forestry df = Done rows
       /\ unified_csv Sample.wv_world = Some existing
       /\ unified_csv (after_write Sample.wv_world Sample.wv_written)
          = Some out
       /\ (forall r, r ∈ deduplicate wv_forestry rows ->
                     source r = source_code wv_forestry)
       /\ (full_replace wv_forestry ->
           out ≡ₚ filter (fun r => source r <> source_code wv_forestry)
                    existing
                  ++ deduplicate wv_forestry rows).
Proof.
  split; [vm_compute; reflexivity|].
  destruct (C3_replace_then_append wv_forestry Sample.wv_world
              (after_write Sample.wv_world Sample.wv_written))
    as (df & rows & existing & out & H1 & H2 & H3 & H4 & H5 & H6 & _).
  - discriminate.
  - vm_compute; reflexivity.
  - exists df, rows, existing, out.
    do 5 (split; [assumption|]). intros Hfull. by apply H6.
Defined.

(** Against the specification: after the CA run the dataset has a row of
    source "CA" that is not in the batch, the CA row of the other series,
    where the claim has every row of the source replaced; and a WV run
    whose batch is empty raises in [show_summary] and leaves the WV row of
    the dataset where it was. *)
Lemma C3_counterexample :
  run CA.main Sample.ca_series_world
  = (Done tt, after_write Sample.ca_series_world Sample.ca_written)
  /\ deduplicate ca_cdtfa Sample.ca_half_records = Sample.ca_half_records
  /\ filter (fun r => source r = "CA") Sample.ca_written
     = Sample.noted_record "CA" 2019 "Extension survey of stumpage sales"
       :: Sample.ca_half_records
  /\ Forall (fun r => year r <> 2019%Z) Sample.ca_half_records
  /\ WV.transform_to_unified [Sample.wv_nan_row] = Done []
  /\ run WV.main Sample.wv_stale_world
     = (Raised KeyError, Sample.wv_stale_world)
  /\ unified_csv Sample.wv_stale_world
     = Some [ Sample.other_record "WV" 2019 40 ].
Proof.
  split; [vm_compute; reflexivity|].
  split; [vm_compute; reflexivity|].
  split; [vm_compute; reflexivity|].
  split; [repeat constructor; discriminate|].
  repeat split; vm_compute; reflexivity.
Qed.

(** ** The window of the MN run *)

(** C6, as the scripts have it.
    The MN run removes exactly the existing rows with
    source "MN" and year 2013 or later -- the window has no upper end -- and
    appends the batch; every existing MN row of an earlier year, and every
    row of another source, is in the written dataset as it was. *)
Theorem C6_window_from_2013 w w' :
  run MN.main w = (Done tt, w') ->
  exists df rows existing out,
    raw_csv w = Some df /\ MN.transform_to_unified df = Done rows
    /\ unified_csv w = Some existing /\ unified_csv w' = Some out
    /\ out ≡ₚ filter (fun r => ¬ (source r = "MN" /\ (2013 <= year r)%Z))
                existing
              ++ Pandas.drop_duplicates_last MN.subset rows
    /\ (forall r, r ∈ existing -> source r = "MN" -> (year r < 2013)%Z ->
                  r ∈ out)
    /\ (forall r, r ∈ existing -> source r <> "MN" -> r ∈ out).
Proof.
  intros (df & rows & existing & Hraw & Hrows & _ & Hex & Hck & ->)
    %(main_Done_inv mn_forest_resources).
  exists df, rows, existing. eexists.
  do 4 (split; [done|]).
  split; [apply sort_values_perm|].
  split; intros r Hr Hsrc; [intros Hyear|];
    apply elem_of_sort_values, elem_of_app; left;
    apply list_elem_of_filter; (split; [|done]);
    simpl; unfold MN.replaced; [lia|tauto].
Qed.

Lemma C6_window_from_2013_witness :
  run MN.main Sample.mn_window_world
  = (Done tt, after_write Sample.mn_window_world Sample.mn_window_written)
  /\ exists df rows existing out,
       raw_csv Sample.mn_window_world = Some df
       /\ MN.transform_to_unified df = Done rows
       /\ unified_csv Sample.mn_window_world = Some existing
       /\ unified_csv
            (after_write Sample.mn_window_world Sample.mn_window_written)
          = Some out
       /\ (forall r, r ∈ existing -> source r = "MN" -> (year r < 2013)%Z ->
                     r ∈ out).
Proof.
  split; [vm_compute; reflexivity|].
  destruct (C6_window_from_2013 Sample.mn_window_world
              (after_write Sample.mn_window_world Sample.mn_window_written))
    as (df & rows & existing & out & H1 & H2 & H3 & H4 & _ & H6 & _).
  - vm_compute; reflexivity.
  - exists df, rows, existing, out. repeat split; assumption.
Defined.

(** Against the specification, for the window 2013-2023 the script is
    written for: the existing MN row of 2024 lies outside it and is removed
    all the same. *)
Lemma C6_counterexample :
  run MN.main Sample.mn_window_world
  = (Done tt, after_write Sample.mn_window_world Sample.mn_window_written)
  /\ filter (fun r => source r = "MN" /\ year r = 2024%Z)
       Sample.mn_window_existing
     = [ Sample.mn_record 2024 "Aspen" "cordwood" 26 "$/cord"
           (Some 11.3%Q) (Some 2.3%Q) ]
  /\ ¬ (2013 <= 2024 <= 2023)%Z
  /\ filter (fun r => year r = 2024%Z) Sample.mn_window_written = [].
Proof.
  split; [vm_compute; reflexivity|].
  split; [vm_compute; reflexivity|].
  split; [lia|]. vm_compute; reflexivity.
Qed.

(** An existing MN row of 2013 or any later year is removed. *)
Lemma mn_later_years_removed (r : CanonicalRecord)
    (existing : list CanonicalRecord) :
  source r = "MN" -> (2013 <= year r)%Z ->
  r ∉ filter (fun r => ¬ MN.replaced r) existing.
Proof. intros Hsrc Hy [Hr _]%list_elem_of_filter. by apply Hr. Qed.

(** ** Running a full replace twice *)

(** Pruning and appending the same batch again gives the same frame. *)
Lemma replace_twice (R : CanonicalRecord -> Prop) `{!forall r, Decision (R r)}
    (existing batch : list CanonicalRecord) :
  (forall r, r ∈ batch -> R r) ->
  let once := Pandas.sort_values (filter (fun r => ¬ R r) existing ++ batch) in
  Pandas.sort_values (filter (fun r => ¬ R r) once ++ batch) = once.
Proof.
  intros Hbatch once. unfold once.
  rewrite filter_sort_values, filter_app.
  rewrite (filter_all _ (filter _ existing))
    by (by intros r [? _]%list_elem_of_filter).
  rewrite (filter_none _ batch) by (intros r Hr Hn; by apply Hn, Hbatch).
  by rewrite app_nil_r, sort_values_sort_app.
Qed.

(** C10.  Running a full-replace script a second time on the files the
    first run left writes the same dataset again. *)
Theorem C10_full_replace_idempotent s w w1 :
  full_replace s ->
  run (main s) w = (Done tt, w1) ->
  exists w2, run (main s) w1 = (Done tt, w2)
             /\ unified_csv w2 = unified_csv w1.
Proof.
  intros Hfull (df & rows & existing & Hraw & Hrows & Hne & Hex & Hck & ->)
    %main_Done_inv.
  assert (s <> mn_forest_resources) as Hs by (by destruct Hfull as [-> | ->]).
  eexists. split.
  - apply (main_Done s _ df rows); [done|done| |done|].
    + intros ->. apply Hne. by destruct s.
    + by destruct Hfull as [-> | ->].
  - simpl. f_equal. apply replace_twice.
    intros r (row & _ & Hasm)%(batch_assembled s df rows); [|done].
    by apply (assembled_replaced s row).
Qed.

Lemma C10_full_replace_idempotent_witness :
  full_replace wv_forestry
  /\ run (main wv_forestry) Sample.wv_world
     = (Done tt, after_write Sample.wv_world Sample.wv_written)
  /\ exists w2,
       run (main wv_forestry) (after_write Sample.wv_world Sample.wv_written)
       = (Done tt, w2)
       /\ unified_csv w2
          = unified_csv (after_write Sample.wv_world Sample.wv_written).
Proof.
  split; [by left|]. split; [vm_compute; reflexivity|].
  apply (C10_full_replace_idempotent wv_forestry Sample.wv_world).
  - by left.
  - vm_compute; reflexivity.
Defined.

(** * Further properties of the scripts *)

(** ** The order of the written dataset *)

Lemma sort_key_leb_same r x :
  same_sort_key r x -> Pandas.sort_key_leb r x = true.
Proof.
  intros (Hs & Hy & Hq). unfold Pandas.sort_key_leb.
  rewrite Hs, Hy, Hq, str_compare_refl, Z.compare_refl.
  destruct (quarter r); simpl; [apply Z.leb_refl|done].
Qed.

Lemma same_sort_key_sym r x : same_sort_key r x -> same_sort_key x r.
Proof. intros (? & ? & ?). by repeat split. Qed.

Lemma same_sort_key_trans r x y :
  same_sort_key r x -> same_sort_key r y -> same_sort_key x y.
Proof. intros (? & ? & ?) (? & ? & ?). repeat split; congruence. Qed.

(** Sorting leaves a list alone whose elements are all below one another. *)
Lemma stable_sort_all_le {A} (leb : A -> A -> bool) (l : list A) :
  (forall x y, x ∈ l -> y ∈ l -> leb x y = true) ->
  Pandas.stable_sort leb l = l.
Proof.
  induction l as [|x l IH]; intros Hall; [done|].
  change (Pandas.stable_sort leb (x :: l))
    with (Pandas.insert_row leb x (Pandas.stable_sort leb l)).
  rewrite IH by (intros y z Hy Hz; apply Hall; by right).
  apply insert_row_head, list.Forall_forall.
  intros y Hy. apply Hall; [by left|by right].
Qed.

(** Rows with the same sort key come out of [sort_values] in the order
    they went in. *)
Lemma sort_values_stable r df :
  filter (same_sort_key r) (Pandas.sort_values df)
  = filter (same_sort_key r) df.
Proof.
  rewrite filter_sort_values. apply stable_sort_all_le.
  intros x y [Hx _]%list_elem_of_filter [Hy _]%list_elem_of_filter.
  apply sort_key_leb_same. by apply (same_sort_key_trans r).
Qed.

(** X1.  A run that terminates normally has written a dataset sorted by
    source, then year, then quarter with the missing quarters last. *)
Theorem written_dataset_sorted s w w' :
  run (main s) w = (Done tt, w') ->
  exists out, unified_csv w' = Some out /\ StronglySorted sort_key_le out.
Proof.
  intros (df & rows & existing & _ & _ & _ & _ & _ & ->)%main_Done_inv.
  eexists. split; [done|].
  apply (stable_sort_sorted Pandas.sort_key_leb);
    [apply sort_key_leb_total|apply sort_key_leb_trans].
Qed.

Lemma written_dataset_sorted_witness :
  run (main wv_forestry) Sample.wv_world
  = (Done tt, after_write Sample.wv_world Sample.wv_written)
  /\ exists out,
       unified_csv (after_write Sample.wv_world Sample.wv_written) = Some out
       /\ StronglySorted sort_key_le out.
Proof.
  split; [vm_compute; reflexivity|].
  apply (written_dataset_sorted wv_forestry Sample.wv_world).
  vm_compute; reflexivity.
Defined.

(** X2.  Among the rows of one source, year and quarter the written dataset
    lists the surviving existing rows first, in their old order, and then
    the rows of the batch, in batch order. *)
Theorem written_group_order s w w' r :
  run (main s) w = (Done tt, w') ->
  exists df rows existing out,
    raw_csv w = Some df /\ transform_to_unified s df = Done rows
    /\ unified_csv w = Some existing /\ unified_csv w' = Some out
    /\ filter (same_sort_key r) out
       = filter (same_sort_key r)
           (filter (fun x => ¬ replaced s x) existing)
         ++ filter (same_sort_key r) (deduplicate s rows).
Proof.
  intros (df & rows & existing & Hraw & Hrows & _ & Hex & Hck & ->)%main_Done_inv.
  exists df, rows, existing. eexists.
  do 4 (split; [done|]).
  by rewrite sort_values_stable, filter_app.
Qed.

Lemma written_group_order_witness :
  run (main mn_forest_resources) Sample.mn_2012_world
  = (Done tt, after_write Sample.mn_2012_world Sample.mn_2012_written)
  /\ exists df rows existing out,
       raw_csv Sample.mn_2012_world = Some df
       /\ transform_to_unified mn_forest_resources df = Done rows
       /\ unified_csv Sample.mn_2012_world = Some existing
       /\ unified_csv
            (after_write Sample.mn_2012_world Sample.mn_2012_written)
          = Some out
       /\ filter (same_sort_key (Sample.mn_record 2012 "" "" 0 "" None None))
            out
          = filter (same_sort_key (Sample.mn_record 2012 "" "" 0 "" None None))
              (filter (fun x => ¬ replaced mn_forest_resources x) existing)
            ++ filter
                 (same_sort_key (Sample.mn_record 2012 "" "" 0 "" None None))
                 (deduplicate mn_forest_resources rows).
Proof.
  split; [vm_compute; reflexivity|].
  apply (written_group_order mn_forest_resources Sample.mn_2012_world).
  vm_compute; reflexivity.
Defined.

(** ** Row counts *)

Lemma length_filter_complement {A} (P : A -> Prop)
    `{!forall x, Decision (P x)} (l : list A) :
  length (filter P l) + length (filter (fun x => ¬ P x) l) = length l.
Proof.
  rewrite <- length_app. apply Permutation_length, filter_app_complement.
Qed.

(** X3.  The written dataset has as many rows as the existing dataset,
    less the rows the script replaces, plus the batch. *)
Theorem written_row_count s w w' :
  run (main s) w = (Done tt, w') ->
  exists df rows existing out,
    raw_csv w = Some df /\ transform_to_unified s df = Done rows
    /\ unified_csv w = Some existing /\ unified_csv w' = Some out
    /\ length out + length (filter (replaced s) existing)
       = length existing + length (deduplicate s rows).
Proof.
  intros (df & rows & existing & Hraw & Hrows & _ & Hex & Hck & ->)%main_Done_inv.
  exists df, rows, existing. eexists.
  do 4 (split; [done|]).
  rewrite sort_values_perm, length_app.
  pose proof (length_filter_complement (replaced s) existing). lia.
Qed.

Lemma written_row_count_witness :
  run (main ca_cdtfa) Sample.ca_world
  = (Done tt, after_write Sample.ca_world Sample.ca_written)
  /\ exists df rows existing out,
       raw_csv Sample.ca_world = Some df
       /\ transform_to_unified ca_cdtfa df = Done rows
       /\ unified_csv Sample.ca_world = Some existing
       /\ unified_csv (after_write Sample.ca_world Sample.ca_written)
          = Some out
       /\ length out + length (filter (replaced ca_cdtfa) existing)
          = length existing + length (deduplicate ca_cdtfa rows).
Proof.
  split; [vm_compute; reflexivity|].
  apply (written_row_count ca_cdtfa Sample.ca_world).
  vm_compute; reflexivity.
Defined.

(** X4.  When the existing dataset has no row the script would replace --
    the source is integrated for the first time -- a run that terminates
    normally is a pure append: every existing row is kept and the batch
    added. *)
Theorem first_integration_appends s w w' existing :
  unified_csv w = Some existing ->
  (forall r, r ∈ existing -> ¬ replaced s r) ->
  run (main s) w = (Done tt, w') ->
  exists df rows,
    raw_csv w = Some df /\ transform_to_unified s df = Done rows
    /\ unified_csv w'
       = Some (Pandas.sort_values (existing ++ deduplicate s rows)).
Proof.
  intros Hex Hnone
    (df & rows & existing' & Hraw & Hrows & _ & Hex' & _ & ->)%main_Done_inv.
  assert (existing' = existing) as -> by congruence.
  exists df, rows. do 2 (split; [done|]).
  simpl. by rewrite (filter_all _ existing).
Qed.

Lemma first_integration_appends_witness :
  unified_csv Sample2.usfs_first_world = Some Sample2.usfs_existing
  /\ (forall r, r ∈ Sample2.usfs_existing -> ¬ replaced usfs_pnw_species r)
  /\ run (main usfs_pnw_species) Sample2.usfs_first_world
     = (Done tt,
        after_write Sample2.usfs_first_world
          (Sample2.usfs_existing ++ Sample2.usfs_records))
  /\ exists df rows,
       raw_csv Sample2.usfs_first_world = Some df
       /\ transform_to_unified usfs_pnw_species df = Done rows
       /\ unified_csv
            (after_write Sample2.usfs_first_world
               (Sample2.usfs_existing ++ Sample2.usfs_records))
          = Some (Pandas.sort_values
                    (Sample2.usfs_existing
                     ++ deduplicate usfs_pnw_species rows)).
Proof.
  assert (forall r, r ∈ Sample2.usfs_existing ->
                    ¬ replaced usfs_pnw_species r) as Hnone.
  { intros r ->%list_elem_of_singleton. discriminate. }
  split; [reflexivity|]. split; [exact Hnone|].
  split; [vm_compute; reflexivity|].
  apply (first_integration_appends usfs_pnw_species Sample2.usfs_first_world
           _ Sample2.usfs_existing).
  - reflexivity.
  - exact Hnone.
  - vm_compute; reflexivity.
Defined.

(** ** Runs that raise *)

Lemma main_empty_batch s w df :
  raw_csv w = Some df ->
  transform_to_unified s df = Done [] ->
  run (main s) w = (Raised KeyError, w).
Proof.
  intros Hraw Hrows. rewrite main_integrate.
  unfold run, integrate, mbind, script_bind, read_raw_csv, lift.
  rewrite Hraw, Hrows. by destruct s.
Qed.

Lemma main_transform_Raised s w df e :
  raw_csv w = Some df ->
  transform_to_unified s df = Raised e ->
  run (main s) w = (Raised e, w).
Proof.
  intros Hraw Hrows. rewrite main_integrate.
  unfold run, integrate, mbind, script_bind, read_raw_csv, lift.
  by rewrite Hraw, Hrows.
Qed.

(** X5.  When every row of the parsed file is skipped -- the file has no
    rows, or none with a usable price -- the run raises [KeyError] in
    [show_summary], before the dataset is read, and leaves the files as
    they were. *)
Theorem no_usable_row_KeyError s w df :
  raw_csv w = Some df ->
  Forall (fun row => assemble s row = Done None) df ->
  run (main s) w = (Raised KeyError, w).
Proof.
  intros Hraw Hskip. apply (main_empty_batch s w df Hraw).
  assert (df ≫= kept (assemble s) = []) as Hnil.
  { clear Hraw. induction Hskip as [|row df Hrow _ IH]; [done|].
    simpl. unfold kept at 1. rewrite Hrow. exact IH. }
  rewrite transform_iterrows, iterrows_total, Hnil; [done|].
  eapply Forall_impl; [exact Hskip|]. simpl. eauto.
Qed.

Lemma no_usable_row_KeyError_witness :
  Forall (fun row => assemble mn_forest_resources row = Done None)
    Sample2.mn_unpriced_rows
  /\ run (main mn_forest_resources) Sample2.mn_unpriced_world
     = (Raised KeyError, Sample2.mn_unpriced_world).
Proof.
  assert (Forall (fun row => assemble mn_forest_resources row = Done None)
            Sample2.mn_unpriced_rows) as Hskip.
  { repeat constructor. }
  split; [exact Hskip|].
  apply (no_usable_row_KeyError mn_forest_resources
           Sample2.mn_unpriced_world Sample2.mn_unpriced_rows).
  - reflexivity.
  - exact Hskip.
Defined.

Lemma assemble_Raised s row e :
  assemble s row = Raised e ->
  may_raise s e
  /\ (Forall is_Some (string_cells s row) -> e = ValueError).
Proof.
  intros H. destruct s; assemble_inv H; simpl; (split; [auto|]);
    try done; rewrite ?Forall_cons; intros Hall;
    repeat match goal with
           | H : _ /\ _ |- _ => destruct H
           | H : is_Some _ |- _ => destruct H
           end; congruence.
Qed.

(** When the body raises on some row, the loop raises what the body
    raises on the first such row. *)
Lemma iterrows_Raised {Raw} (f : Raw -> outcome (option CanonicalRecord))
    df row e :
  row ∈ df -> f row = Raised e ->
  exists row' e', row' ∈ df /\ f row' = Raised e'
                  /\ iterrows f df [] = Raised e'.
Proof.
  intros Hin Hrow.
  induction df as [|r df IH]; [by apply elem_of_nil in Hin|].
  rewrite iterrows_cons.
  destruct (f r) as [o|e'] eqn:Hr.
  - apply elem_of_cons in Hin as [->|Hin]; [congruence|].
    destruct (IH Hin) as (row' & e' & Hin' & Hrow' & ->).
    exists row', e'. split; [by right|done].
  - exists r, e'. split; [by left|done].
Qed.

Lemma yearless_row_assemble s row p :
  raw_price s row = Some p -> PyNum.is_positive p = true ->
  raw_year s row = None ->
  exists e, assemble s row = Raised e.
Proof.
  intros Hp Hpos Hy.
  pose proof (positive_price_not_skipped s row p Hp Hpos) as Hkept.
  destruct (assemble s row) as [[rec|]|e] eqn:Hrow; [|done|by exists e].
  apply assembled_year in Hrow. congruence.
Qed.

(** X6.  A row with a positive price and no year makes the run raise and
    leave the files as they were, wherever the row stands in the parsed
    file.  What is raised is the [ValueError] of [int(nan)] unless a label
    cell is empty too: in an MN run always, in the other runs when the
    label cells of the file are filled in; otherwise it may be the
    [AttributeError] (WV, CA) or [TypeError] (WA_OR) of a string operation
    on an empty label. *)
Theorem yearless_row_raises s w df row p :
  raw_csv w = Some df ->
  row ∈ df ->
  raw_price s row = Some p -> PyNum.is_positive p = true ->
  raw_year s row = None ->
  exists e,
    run (main s) w = (Raised e, w)
    /\ may_raise s e
    /\ ((forall r, r ∈ df -> Forall is_Some (string_cells s r)) ->
        e = ValueError).
Proof.
  intros Hraw Hin Hp Hpos Hy.
  destruct (yearless_row_assemble s row p Hp Hpos Hy) as [e0 Hrow].
  destruct (iterrows_Raised (assemble s) df row e0 Hin Hrow)
    as (row' & e & Hin' & Hrow' & Hloop).
  destruct (assemble_Raised s row' e Hrow') as [Hmay Hvalue].
  exists e. split; [|split; [done|]].
  - apply (main_transform_Raised s w df _ Hraw).
    by rewrite transform_iterrows.
  - intros Hcells. by apply Hvalue, Hcells.
Qed.

Lemma yearless_row_raises_witness :
  raw_price wv_forestry Sample2.wv_yearless_row = Some (PyNum.nearest 50)
  /\ raw_year wv_forestry Sample2.wv_yearless_row = None
  /\ run (main wv_forestry) Sample2.wv_yearless_world
     = (Raised AttributeError, Sample2.wv_yearless_world)
  /\ exists e,
       run (main wv_forestry) Sample2.wv_yearless_world
       = (Raised e, Sample2.wv_yearless_world)
       /\ may_raise wv_forestry e
       /\ ((forall r, r ∈ [Sample2.wv_unlabelled_row; Sample2.wv_yearless_row] ->
                      Forall is_Some (string_cells wv_forestry r)) ->
           e = ValueError).
Proof.
  split; [reflexivity|]. split; [reflexivity|].
  split; [vm_compute; reflexivity|].
  apply (yearless_row_raises wv_forestry Sample2.wv_yearless_world
           [Sample2.wv_unlabelled_row; Sample2.wv_yearless_row]
           Sample2.wv_yearless_row (PyNum.nearest 50)).
  - reflexivity.
  - right. by left.
  - reflexivity.
  - vm_compute; reflexivity.
  - reflexivity.
Defined.

(** In an MN run the exception is the [ValueError]. *)
Example mn_yearless_run :
  run (main mn_forest_resources) Sample2.mn_yearless_world
  = (Raised ValueError, Sample2.mn_yearless_world).
Proof. vm_compute. reflexivity. Qed.



(** ** Running a script again *)

Lemma assembled_notes s row rec :
  assemble s row = Done (Some rec) -> is_Some (notes rec).
Proof. intros H. destruct s; assemble_inv H; by eexists. Qed.

(** A column with a text cell has the [.str] accessor. *)
Lemma str_accessor_text column cell :
  cell ∈ column -> is_Some cell -> Pandas.str_accessor column = Done tt.
Proof.
  intros Hin Hsome. unfold Pandas.str_accessor.
  destruct column as [|c column]; [done|].
  assert (existsb (fun cell => bool_decide (is_Some cell)) (c :: column)
          = true) as ->; [|done].
  apply existsb_exists. exists cell.
  split; [by apply list_elem_of_In|by apply bool_decide_eq_true_2].
Qed.

(** The dataset a run has written passes the check of the next run: it
    holds the batch, and the records of a batch have notes. *)
Lemma dataset_check_written s df rows existing :
  transform_to_unified s df = Done rows ->
  deduplicate s rows <> [] ->
  dataset_check s
    (Pandas.sort_values
       (filter (fun r => ¬ replaced s r) existing ++ deduplicate s rows))
  = Done tt.
Proof.
  intros Hrows Hne. destruct s; try done.
  destruct (deduplicate ca_cdtfa rows) as [|r batch] eqn:Hb; [done|].
  assert (r ∈ deduplicate ca_cdtfa rows) as Hr by (rewrite Hb; by left).
  pose proof Hr as (row & _ & Hasm)%(batch_assembled ca_cdtfa df rows);
    [|done].
  apply (str_accessor_text _ (notes r)); [|by apply (assembled_notes _ row)].
  apply list_elem_of_fmap_2, elem_of_sort_values, elem_of_app. right.
  by left.
Qed.

(** X8.  A second run on the files the first run left writes the same
    dataset again whenever every record of the batch is one the script
    would replace: always in a CA, WV or WA_OR run, and in an MN run when
    the parsed file has no year before 2013. *)
Theorem rerun_writes_same_dataset s w w1 :
  (s = mn_forest_resources ->
   forall df row y, raw_csv w = Some df -> row ∈ df ->
                    raw_year s row = Some y -> (2013 <= y)%Z) ->
  run (main s) w = (Done tt, w1) ->
  exists w2, run (main s) w1 = (Done tt, w2)
             /\ unified_csv w2 = unified_csv w1.
Proof.
  intros Hyears (df & rows & existing & Hraw & Hrows & Hne & Hex & Hck & ->)
    %main_Done_inv.
  eexists. split.
  - apply (main_Done s _ df rows); [done|done| |done|].
    + intros ->. apply Hne. by destruct s.
    + by apply (dataset_check_written s df rows).
  - simpl. f_equal. apply replace_twice.
    intros r (row & Hin & Hasm)%(batch_assembled s df rows); [|done].
    destruct (decide (s = mn_forest_resources)) as [->|Hs];
      [|by apply (assembled_replaced s row)].
    destruct (assembled_source _ row r Hasm) as [Hsrc _].
    pose proof (assembled_year _ row r Hasm) as Hy.
    split; [done|]. by apply (Hyears eq_refl df row).
Qed.

Lemma rerun_writes_same_dataset_witness :
  run (main ca_cdtfa) Sample.ca_world
  = (Done tt, after_write Sample.ca_world Sample.ca_written)
  /\ exists w2,
       run (main ca_cdtfa) (after_write Sample.ca_world Sample.ca_written)
       = (Done tt, w2)
       /\ unified_csv w2
          = unified_csv (after_write Sample.ca_world Sample.ca_written).
Proof.
  split; [vm_compute; reflexivity|].
  apply (rerun_writes_same_dataset ca_cdtfa Sample.ca_world).
  - discriminate.
  - vm_compute; reflexivity.
Defined.

(** ** Rows that share a deduplication key *)

Lemma NoDup_fmap_eq {A B} (f : A -> B) (l : list A) x y :
  NoDup (f <$> l) -> x ∈ l -> y ∈ l -> f x = f y -> x = y.
Proof.
  induction l as [|a l IH]; [by intros _ ?%elem_of_nil|].
  rewrite fmap_cons, NoDup_cons.
  intros [Ha Hnd] [->|Hx]%elem_of_cons [->|Hy]%elem_of_cons Hxy; [done| | |].
  - exfalso. apply Ha. rewrite Hxy. by apply list_elem_of_fmap_2.
  - exfalso. apply Ha. rewrite <- Hxy. by apply list_elem_of_fmap_2.
  - by apply IH.
Qed.

(** X10.  The MN script files pulpwood and pulp-and-bolts prices under the
    one product type "cordwood": of a pulpwood row and a pulp-and-bolts row
    for the same year and species at most one reaches the batch. *)
Theorem mn_pulpwood_pulp_bolts_collide rows row1 row2 rec1 rec2 :
  MN.assemble row1 = Done (Some rec1) ->
  MN.assemble row2 = Done (Some rec2) ->
  MN.raw_product_type row1 = "pulpwood" ->
  MN.raw_product_type row2 = "pulp_bolts" ->
  MN.raw_year row1 = MN.raw_year row2 ->
  MN.raw_species row1 = MN.raw_species row2 ->
  ¬ (rec1 ∈ Pandas.drop_duplicates_last MN.subset rows
     /\ rec2 ∈ Pandas.drop_duplicates_last MN.subset rows).
Proof.
  intros H1 H2 Hp1 Hp2 Hy Hsp [Hin1 Hin2].
  assert (MN.subset rec1 = MN.subset rec2 /\ notes rec1 <> notes rec2)
    as [Hkey Hnotes].
  { unfold MN.assemble, mbind, outcome_bind, py_int in H1, H2.
    rewrite Hp1 in H1. rewrite Hp2 in H2.
    repeat case_match; simplify_eq. unfold MN.subset. simpl.
    assert (MN.PRODUCT_MAP !! "pulpwood" = Some "cordwood") as ->
      by (vm_compute; reflexivity).
    assert (MN.PRODUCT_MAP !! "pulp_bolts" = Some "cordwood") as ->
      by (vm_compute; reflexivity).
    simpl. split; [congruence|discriminate]. }
  apply Hnotes. f_equal.
  by apply (NoDup_fmap_eq MN.subset (Pandas.drop_duplicates_last MN.subset rows));
    [apply drop_duplicates_last_NoDup|..].
Qed.

Lemma mn_pulpwood_pulp_bolts_collide_witness :
  MN.assemble Sample2.mn_pulpwood_row = Done (Some Sample2.mn_pulpwood_record)
  /\ MN.assemble Sample2.mn_pulp_bolts_row
     = Done (Some Sample2.mn_pulp_bolts_record)
  /\ ¬ (Sample2.mn_pulpwood_record
         ∈ Pandas.drop_duplicates_last MN.subset
             [Sample2.mn_pulp_bolts_record; Sample2.mn_pulpwood_record]
       /\ Sample2.mn_pulp_bolts_record
         ∈ Pandas.drop_duplicates_last MN.subset
             [Sample2.mn_pulp_bolts_record; Sample2.mn_pulpwood_record]).
Proof.
  split; [vm_compute; reflexivity|]. split; [vm_compute; reflexivity|].
  apply (mn_pulpwood_pulp_bolts_collide _
           Sample2.mn_pulpwood_row Sample2.mn_pulp_bolts_row);
    vm_compute; reflexivity.
Defined.

Lemma usfs_assembled_region row rec :
  USFS_PNW.assemble row = Done (Some rec) ->
  exists label,
    USFS_PNW.raw_species row = Some label
    /\ species rec = USFS_PNW.standardize_species label
    /\ region rec = usfs_region_for label
    /\ USFS_PNW.raw_year row = Some (year rec)
    /\ USFS_PNW.raw_price_per_mbf row = Some (price_avg rec).
Proof.
  intros H. unfold USFS_PNW.assemble, mbind, outcome_bind, py_int, py_str in H.
  repeat case_match; simplify_eq; by eexists.
Qed.

(** X11.  Of the species labels in the WA_OR table, two different ones are
    given the same species and region only if they are the two true-fir
    labels; in particular the west, east and total Douglas-fir labels stay
    apart by their region. *)
Theorem usfs_labels_collide_only_true_firs l1 l2 :
  is_Some (USFS_PNW.SPECIES_MAP !! l1) ->
  is_Some (USFS_PNW.SPECIES_MAP !! l2) ->
  USFS_PNW.standardize_species l1 = USFS_PNW.standardize_species l2 ->
  usfs_region_for l1 = usfs_region_for l2 ->
  l1 = l2
  \/ (l1 ∈ ["noble_shasta_fir"; "other_true_firs"]
      /\ l2 ∈ ["noble_shasta_fir"; "other_true_firs"]).
Proof.
  intros [v1 H1] [v2 H2].
  apply elem_of_list_to_map_2 in H1. apply elem_of_list_to_map_2 in H2.
  repeat (apply elem_of_cons in H1 as [H1|H1]; [injection H1 as -> ->|]);
    [..|by apply elem_of_nil in H1];
    (repeat (apply elem_of_cons in H2 as [H2|H2]; [injection H2 as -> ->|]);
     [..|by apply elem_of_nil in H2]);
    vm_compute; intros Hs Hr;
    first [by left | discriminate
          | right; split; repeat first [by left | right]].
Qed.

Lemma usfs_labels_collide_only_true_firs_witness :
  is_Some (USFS_PNW.SPECIES_MAP !! "noble_shasta_fir")
  /\ is_Some (USFS_PNW.SPECIES_MAP !! "other_true_firs")
  /\ ("noble_shasta_fir" = "other_true_firs"
      \/ ("noble_shasta_fir" ∈ ["noble_shasta_fir"; "other_true_firs"]
          /\ "other_true_firs" ∈ ["noble_shasta_fir"; "other_true_firs"])).
Proof.
  assert (is_Some (USFS_PNW.SPECIES_MAP !! "noble_shasta_fir")) as H1
    by (vm_compute; eauto).
  assert (is_Some (USFS_PNW.SPECIES_MAP !! "other_true_firs")) as H2
    by (vm_compute; eauto).
  split; [exact H1|]. split; [exact H2|].
  apply (usfs_labels_collide_only_true_firs _ _ H1 H2);
    vm_compute; reflexivity.
Defined.

(** X12.  The WA_OR batch holds at most one of the two true-fir prices of a
    year: a noble/Shasta fir row and an other-true-firs row of the same year
    with different prices never both reach it. *)
Theorem usfs_true_fir_rows_collide rows row1 row2 rec1 rec2 :
  USFS_PNW.assemble row1 = Done (Some rec1) ->
  USFS_PNW.assemble row2 = Done (Some rec2) ->
  USFS_PNW.raw_species row1 = Some "noble_shasta_fir" ->
  USFS_PNW.raw_species row2 = Some "other_true_firs" ->
  USFS_PNW.raw_year row1 = USFS_PNW.raw_year row2 ->
  USFS_PNW.raw_price_per_mbf row1 <> USFS_PNW.raw_price_per_mbf row2 ->
  ¬ (rec1 ∈ Pandas.drop_duplicates_last USFS_PNW.subset rows
     /\ rec2 ∈ Pandas.drop_duplicates_last USFS_PNW.subset rows).
Proof.
  intros H1 H2 Hl1 Hl2 Hy Hprice [Hin1 Hin2].
  destruct (usfs_assembled_region row1 rec1 H1)
    as (l1 & Hraw1 & Hs1 & Hr1 & Hy1 & Hp1).
  destruct (usfs_assembled_region row2 rec2 H2)
    as (l2 & Hraw2 & Hs2 & Hr2 & Hy2 & Hp2).
  assert (l1 = "noble_shasta_fir") as -> by congruence.
  assert (l2 = "other_true_firs") as -> by congruence.
  destruct (assembled_source usfs_pnw_species row1 rec1 H1) as [Hsrc1 _].
  destruct (assembled_source usfs_pnw_species row2 rec2 H2) as [Hsrc2 _].
  apply Hprice. rewrite Hp1, Hp2. do 2 f_equal.
  apply (NoDup_fmap_eq USFS_PNW.subset
           (Pandas.drop_duplicates_last USFS_PNW.subset rows));
    [apply drop_duplicates_last_NoDup|done..|].
  unfold USFS_PNW.subset.
  rewrite Hsrc1, Hsrc2, Hs1, Hs2, Hr1, Hr2.
  assert (year rec1 = year rec2) as -> by congruence.
  reflexivity.
Qed.

Lemma usfs_true_fir_rows_collide_witness :
  USFS_PNW.assemble Sample2.usfs_noble_row
  = Done (Some (Sample2.usfs_record 2020 "true_fir" "Pacific Northwest OR/WA"
                  120 30))
  /\ USFS_PNW.assemble Sample2.usfs_other_firs_row
     = Done (Some (Sample2.usfs_record 2020 "true_fir"
                     "Pacific Northwest OR/WA" 90 22.5))
  /\ ¬ (Sample2.usfs_record 2020 "true_fir" "Pacific Northwest OR/WA"
          120 30
        ∈ Pandas.drop_duplicates_last USFS_PNW.subset
            [ Sample2.usfs_record 2020 "true_fir" "Pacific Northwest OR/WA"
                120 30;
              Sample2.usfs_record 2020 "true_fir" "Pacific Northwest OR/WA"
                90 22.5 ]
        /\ Sample2.usfs_record 2020 "true_fir" "Pacific Northwest OR/WA"
             90 22.5
           ∈ Pandas.drop_duplicates_last USFS_PNW.subset
               [ Sample2.usfs_record 2020 "true_fir" "Pacific Northwest OR/WA"
                   120 30;
                 Sample2.usfs_record 2020 "true_fir" "Pacific Northwest OR/WA"
                   90 22.5 ]).
Proof.
  split; [vm_compute; reflexivity|]. split; [vm_compute; reflexivity|].
  apply (usfs_true_fir_rows_collide _
           Sample2.usfs_noble_row Sample2.usfs_other_firs_row);
    try (vm_compute; reflexivity).
  discriminate.
Defined.

(** ** Species tokens *)

Lemma standardize_species_fallback s label :
  species_map s !! label = None ->
  standardize_species s label = fallback_token s label.
Proof.
  intros Hnone. destruct s; simpl in *; [done| | |].
  - unfold WV.standardize_species. rewrite Hnone. simpl.
    unfold PyStr.replace, PyStr.lower. rewrite map_chars_compose.
    apply map_chars_ext, wv_fallback_char.
  - unfold CA.standardize_species. rewrite Hnone. simpl.
    unfold PyStr.replace, PyStr.lower. rewrite !map_chars_compose.
    apply map_chars_ext, ca_fallback_char.
  - unfold USFS_PNW.standardize_species. by rewrite Hnone.
Qed.

Lemma clean_token_map_chars s g label :
  (forall c, clean_char s (g c) = true) ->
  clean_token s (PyStr.map_chars g label) = true.
Proof.
  intros Hg. unfold clean_token.
  induction label as [|c label IH]; [done|].
  simpl. by rewrite Hg, IH.
Qed.

Lemma clean_underscore_or_lower s c :
  s = wv_forestry \/ s = ca_cdtfa ->
  clean_char s (underscore_or_lower (separators s) c) = true.
Proof.
  intros [-> | ->]; destruct c as [[] [] [] [] [] [] [] []];
    vm_compute; reflexivity.
Qed.

Lemma fallback_token_separators s label :
  s = wv_forestry \/ s = ca_cdtfa ->
  fallback_token s label
  = PyStr.map_chars (underscore_or_lower (separators s)) label.
Proof. by intros [-> | ->]. Qed.

(** X13.  Every species token the WV and CA scripts produce, from the table
    or from the fallback, is free of ASCII capital letters and of spaces,
    and in CA of hyphens as well. *)
Theorem species_token_clean s label :
  s = wv_forestry \/ s = ca_cdtfa ->
  clean_token s (standardize_species s label) = true.
Proof.
  intros Hs.
  destruct (species_map s !! label) as [v|] eqn:Hlook.
  - assert (standardize_species s label = v) as ->.
    { destruct Hs as [-> | ->]; simpl in *;
        unfold WV.standardize_species, CA.standardize_species;
        by rewrite Hlook. }
    destruct Hs as [-> | ->]; simpl in Hlook;
      apply elem_of_list_to_map_2 in Hlook;
      repeat (apply elem_of_cons in Hlook as [Hlook|Hlook];
              [injection Hlook as -> ->; vm_compute; reflexivity|]);
      by apply elem_of_nil in Hlook.
  - rewrite standardize_species_fallback, fallback_token_separators by done.
    apply clean_token_map_chars. intros c.
    by apply clean_underscore_or_lower.
Qed.

Lemma species_token_clean_witness :
  (wv_forestry = wv_forestry \/ wv_forestry = ca_cdtfa)
  /\ clean_token wv_forestry (standardize_species wv_forestry "Sugar Maple")
     = true.
Proof.
  split; [by left|].
  apply (species_token_clean wv_forestry "Sugar Maple"). by left.
Defined.

(** A clean token is not a key of the species table. *)
Lemma clean_token_not_key s token :
  s = wv_forestry \/ s = ca_cdtfa ->
  clean_token s token = true -> species_map s !! token = None.
Proof.
  intros Hs Hclean.
  destruct (species_map s !! token) as [v|] eqn:Hlook; [|done].
  exfalso.
  destruct Hs as [-> | ->]; simpl in Hlook;
    apply elem_of_list_to_map_2 in Hlook;
    repeat (apply elem_of_cons in Hlook as [Hlook|Hlook];
            [injection Hlook as -> ->; vm_compute in Hclean; discriminate|]);
    by apply elem_of_nil in Hlook.
Qed.

Lemma underscore_or_lower_idemp s c :
  s = wv_forestry \/ s = ca_cdtfa ->
  underscore_or_lower (separators s) (underscore_or_lower (separators s) c)
  = underscore_or_lower (separators s) c.
Proof.
  intros [-> | ->]; destruct c as [[] [] [] [] [] [] [] []];
    vm_compute; reflexivity.
Qed.

(** X14.  Standardising a species label twice gives the same token as
    standardising it once, in every script: tokens already in the dataset
    pass through unchanged. *)
Theorem standardize_species_idempotent s label :
  standardize_species s (standardize_species s label)
  = standardize_species s label.
Proof.
  destruct (decide (s = wv_forestry \/ s = ca_cdtfa)) as [Hs|Hs].
  - pose proof (species_token_clean s label Hs) as Hclean.
    rewrite (standardize_species_fallback s (standardize_species s label))
      by by apply clean_token_not_key.
    destruct (species_map s !! label) as [v|] eqn:Hlook.
    + assert (standardize_species s label = v) as Hv.
      { destruct Hs as [-> | ->]; simpl in *;
          unfold WV.standardize_species, CA.standardize_species;
          by rewrite Hlook. }
      rewrite Hv.
      destruct Hs as [-> | ->]; simpl in Hlook;
        apply elem_of_list_to_map_2 in Hlook;
        repeat (apply elem_of_cons in Hlook as [Hlook|Hlook];
                [injection Hlook as -> ->; vm_compute; reflexivity|]);
        by apply elem_of_nil in Hlook.
    + rewrite (standardize_species_fallback s label) by done.
      rewrite !fallback_token_separators by done.
      rewrite map_chars_compose. apply map_chars_ext. intros c.
      by apply underscore_or_lower_idemp.
  - destruct s; [done|exfalso; apply Hs; by left
                |exfalso; apply Hs; by right|].
    simpl. unfold USFS_PNW.standardize_species.
    destruct (USFS_PNW.SPECIES_MAP !! label) as [v|] eqn:Hlook; simpl;
      [|by rewrite Hlook].
    apply elem_of_list_to_map_2 in Hlook.
    repeat (apply elem_of_cons in Hlook as [Hlook|Hlook];
            [injection Hlook as -> ->; vm_compute; reflexivity|]).
    by apply elem_of_nil in Hlook.
Qed.

(** ** The deduplication key of the CA script *)

Lemma forallb_string_app (P : ascii -> bool) s1 s2 :
  forallb P (list_ascii_of_string (s1 +:+ s2))
  = forallb P (list_ascii_of_string s1) && forallb P (list_ascii_of_string s2).
Proof. induction s1 as [|c s1 IH]; simpl; [done|]. by rewrite IH, andb_assoc. Qed.

(** The characters of a printed integer are digits and the minus sign. *)
Lemma pretty_N_go_chars (P : ascii -> bool) x s :
  (forall d, P (pretty_N_char d) = true) ->
  forallb P (list_ascii_of_string s) = true ->
  forallb P (list_ascii_of_string (pretty_N_go x s)) = true.
Proof.
  intros HP. revert s. induction (N.lt_wf_0 x) as [x _ IH]; intros s Hs.
  assert (x = 0 \/ 0 < x)%N as [->|Hx] by lia.
  - by rewrite pretty_N_go_0.
  - rewrite pretty_N_go_step by done. apply IH.
    { by apply N.div_lt. }
    simpl. by rewrite HP, Hs.
Qed.

Lemma of_int_chars (P : ascii -> bool) z :
  (forall d, P (pretty_N_char d) = true) -> P "-"%char = true ->
  forallb P (list_ascii_of_string (PyStr.of_int z)) = true.
Proof.
  intros HP Hminus.
  unfold PyStr.of_int, pretty, pretty_Z, pretty, pretty_positive, pretty,
    pretty_N.
  destruct z as [|p|p].
  - pose proof (HP 0%N) as H0. vm_compute in H0. simpl. by rewrite H0.
  - case_decide; [done|]. by apply pretty_N_go_chars.
  - case_decide; [done|].
    change (forallb P (list_ascii_of_string
                         (String "-" (pretty_N_go (N.pos p) ""))) = true).
    simpl. rewrite Hminus. by apply pretty_N_go_chars.
Qed.

Lemma of_int_no_dot z : no_dot (PyStr.of_int z) = true.
Proof.
  apply of_int_chars; [|done].
  intros d. unfold pretty_N_char. by repeat case_match.
Qed.

Lemma of_int_no_space z : no_space (PyStr.of_int z) = true.
Proof.
  apply of_int_chars; [|done].
  intros d. unfold pretty_N_char. by repeat case_match.
Qed.

Lemma of_int_not_nan z : PyStr.of_int z <> "nan".
Proof.
  intros Heq.
  pose proof (of_int_chars (fun c => negb (Ascii.eqb c "n")) z) as H.
  rewrite Heq in H. discriminate H; [|done].
  intros d. unfold pretty_N_char. by repeat case_match.
Qed.

Lemma no_space_app s1 s2 :
  no_space (s1 +:+ s2) = no_space s1 && no_space s2.
Proof. apply forallb_string_app. Qed.

(** A printed cell has no space, and tells the cell. *)
Lemma whole_text_no_space cell : no_space (Pandas.whole_text cell) = true.
Proof.
  destruct cell as [n|[n|]]; simpl; [apply of_int_no_space| |done].
  by rewrite no_space_app, of_int_no_space.
Qed.

Lemma string_app_length s1 s2 :
  String.length (s1 +:+ s2) = String.length s1 + String.length s2.
Proof. induction s1 as [|c s1 IH]; simpl; by rewrite ?IH. Qed.

Lemma string_app_inv_tail s1 s2 t : s1 +:+ t = s2 +:+ t -> s1 = s2.
Proof.
  revert s2. induction s1 as [|c s1 IH]; intros [|c' s2]; simpl.
  - done.
  - intros H. apply (f_equal String.length) in H.
    rewrite !string_app_length in H. simpl in H. lia.
  - intros H. apply (f_equal String.length) in H.
    rewrite !string_app_length in H. simpl in H. lia.
  - intros [= -> H]. by rewrite (IH s2 H).
Qed.

Lemma whole_text_inj c1 c2 :
  Pandas.whole_text c1 = Pandas.whole_text c2 -> c1 = c2.
Proof.
  assert (forall a b, PyStr.of_int a <> PyStr.of_int b +:+ ".0") as Hdot.
  { intros a b Heq. pose proof (of_int_no_dot a) as H.
    rewrite Heq in H. unfold no_dot in H.
    rewrite forallb_string_app in H.
    apply andb_prop in H as [_ H]. discriminate H. }
  assert (forall a, PyStr.of_int a +:+ ".0" <> "nan") as Hnan.
  { intros a Heq.
    assert (no_dot (PyStr.of_int a +:+ ".0") = true) as H by by rewrite Heq.
    unfold no_dot in H. rewrite forallb_string_app in H.
    apply andb_prop in H as [_ H]. discriminate H. }
  destruct c1 as [a|[a|]], c2 as [b|[b|]]; simpl; intros Heq;
    try done.
  - by apply (inj PyStr.of_int) in Heq as ->.
  - by apply Hdot in Heq.
  - by apply of_int_not_nan in Heq.
  - symmetry in Heq. by apply Hdot in Heq.
  - apply string_app_inv_tail, (inj PyStr.of_int) in Heq as ->. done.
  - by apply Hnan in Heq.
  - symmetry in Heq. by apply of_int_not_nan in Heq.
  - symmetry in Heq. by apply Hnan in Heq.
Qed.

(** Two strings split at their first space in one way only. *)
Lemma split_at_space d1 d2 r1 r2 :
  no_space d1 = true -> no_space d2 = true ->
  d1 +:+ String " " r1 = d2 +:+ String " " r2 ->
  d1 = d2 /\ r1 = r2.
Proof.
  revert d2. induction d1 as [|c d1 IH]; intros [|c' d2] H1 H2; simpl.
  - by intros [= ->].
  - intros [= <- _]. by vm_compute in H2.
  - intros [= -> _]. by vm_compute in H1.
  - intros [= -> Heq].
    unfold no_space in H1, H2. simpl in H1, H2.
    apply andb_prop in H1 as [_ H1]. apply andb_prop in H2 as [_ H2].
    destruct (IH d2 H1 H2 Heq) as [-> ->]. done.
Qed.

Lemma string_app_assoc s1 s2 s3 : (s1 +:+ s2) +:+ s3 = s1 +:+ (s2 +:+ s3).
Proof.
  induction s1 as [|c s1 IH]; [done|].
  change (String c ((s1 +:+ s2) +:+ s3) = String c (s1 +:+ (s2 +:+ s3))).
  by rewrite IH.
Qed.

Lemma tuple6_eq {A B C D E F : Type} (a a' : A) (b b' : B) (c c' : C)
    (d d' : D) (e e' : E) (f f' : F) :
  (a, b, c, d, e, f) = (a', b', c', d', e', f') ->
  a = a' /\ b = b' /\ c = c' /\ d = d' /\ e = e' /\ f = f'.
Proof. by intros [= -> -> -> -> -> ->]. Qed.

(** The text of [notes] tells the year cell, the half cell and the size
    code. *)
Lemma ca_notes_inj y1 h1 size1 y2 h2 size2 :
  "CDTFA harvest values " +:+ Pandas.whole_text y1
    +:+ " H" +:+ Pandas.whole_text h1
    +:+ ". Size: " +:+ size1 +:+ ". Tax assessment, not market."
  = "CDTFA harvest values " +:+ Pandas.whole_text y2
    +:+ " H" +:+ Pandas.whole_text h2
    +:+ ". Size: " +:+ size2 +:+ ". Tax assessment, not market." ->
  y1 = y2 /\ h1 = h2 /\ size1 = size2.
Proof.
  intros Heq.
  apply (inj (String.app "CDTFA harvest values ")) in Heq.
  change (Pandas.whole_text y1
          +:+ String " " ("H" +:+ Pandas.whole_text h1
                          +:+ ". Size: " +:+ size1
                          +:+ ". Tax assessment, not market.")
          = Pandas.whole_text y2
            +:+ String " " ("H" +:+ Pandas.whole_text h2
                            +:+ ". Size: " +:+ size2
                            +:+ ". Tax assessment, not market.")) in Heq.
  apply split_at_space in Heq as [Hy Heq];
    [|apply whole_text_no_space..].
  apply whole_text_inj in Hy as ->.
  apply (inj (String.app "H")) in Heq.
  assert (forall h size,
            Pandas.whole_text h +:+ ". Size: " +:+ size
              +:+ ". Tax assessment, not market."
            = (Pandas.whole_text h +:+ ".")
              +:+ String " " ("Size: " +:+ size
                              +:+ ". Tax assessment, not market.")) as Hsplit.
  { intros h size. by rewrite string_app_assoc. }
  rewrite !Hsplit in Heq.
  apply split_at_space in Heq as [Hh Heq].
  - apply string_app_inv_tail, whole_text_inj in Hh as ->.
    apply (inj (String.app "Size: ")), string_app_inv_tail in Heq as ->.
    done.
  - by rewrite no_space_app, whole_text_no_space.
  - by rewrite no_space_app, whole_text_no_space.
Qed.

Lemma ca_assembled row rec :
  CA.assemble row = Done (Some rec) ->
  exists y tva label,
    Pandas.whole_value (CA.raw_year row) = Some y
    /\ CA.raw_timber_value_area row = Some tva
    /\ CA.raw_species row = Some label
    /\ source rec = "CA" /\ year rec = y
    /\ species rec = CA.standardize_species label
    /\ region rec = "TVA_" +:+ PyStr.of_int tva
    /\ product_type rec = "sawtimber_" +:+ ca_timber_type row
    /\ notes rec
       = Some ("CDTFA harvest values " +:+ Pandas.whole_text (CA.raw_year row)
               +:+ " H" +:+ Pandas.whole_text (CA.raw_half row)
               +:+ ". Size: " +:+ CA.raw_size_code row
               +:+ ". Tax assessment, not market.").
Proof.
  intros H. unfold CA.assemble, mbind, outcome_bind, py_int, py_str in H.
  repeat case_match; simplify_eq. by eexists _, _, _.
Qed.

(** X15.  Two records of the CA script have the same deduplication key
    exactly when their rows agree on year, half, timber value area, timber
    type, size code and standardised species: [drop_duplicates] never merges
    the two halves of a year, two size classes or two areas. *)
Theorem ca_dedup_key_injective row1 row2 rec1 rec2 :
  CA.assemble row1 = Done (Some rec1) ->
  CA.assemble row2 = Done (Some rec2) ->
  CA.subset rec1 = CA.subset rec2
  <-> CA.raw_year row1 = CA.raw_year row2
      /\ CA.raw_half row1 = CA.raw_half row2
      /\ CA.raw_timber_value_area row1 = CA.raw_timber_value_area row2
      /\ ca_timber_type row1 = ca_timber_type row2
      /\ CA.raw_size_code row1 = CA.raw_size_code row2
      /\ CA.standardize_species <$> CA.raw_species row1
         = CA.standardize_species <$> CA.raw_species row2.
Proof.
  intros (y1 & t1 & l1 & Hy1 & Ht1 & Hl1 & Hsrc1 & Hyr1 & Hsp1 & Hreg1
          & Hprod1 & Hn1)%ca_assembled
    (y2 & t2 & l2 & Hy2 & Ht2 & Hl2 & Hsrc2 & Hyr2 & Hsp2 & Hreg2
     & Hprod2 & Hn2)%ca_assembled.
  unfold CA.subset.
  rewrite Hsrc1, Hsrc2, Hyr1, Hyr2, Hsp1, Hsp2, Hreg1, Hreg2, Hprod1, Hprod2,
    Hn1, Hn2, Ht1, Ht2, Hl1, Hl2.
  split.
  - intros (Hsrc & Hyear & Hsp & Hreg & Hprod & Hnotes)%tuple6_eq.
    apply (inj Some) in Hnotes.
    apply (inj (String.app "TVA_")), (inj PyStr.of_int) in Hreg as ->.
    apply (inj (String.app "sawtimber_")) in Hprod.
    apply ca_notes_inj in Hnotes as (-> & -> & ->).
    simpl. by rewrite Hsp, Hprod.
  - intros (Hyear & Hhalf & [= ->] & Htt & Hsize & Hsp').
    simpl in Hsp'. injection Hsp' as Hsp'.
    rewrite Hyear in Hy1. assert (y1 = y2) as -> by congruence.
    by rewrite Hyear, Hhalf, Htt, Hsize, Hsp'.
Qed.

Lemma ca_dedup_key_injective_witness :
  CA.assemble (Sample.ca_half_row 1 500)
  = Done (Some (Sample.ca_half_record 500 125
      "CDTFA harvest values 2020 H1. Size: 1. Tax assessment, not market."))
  /\ CA.assemble (Sample.ca_half_row 2 520)
     = Done (Some (Sample.ca_half_record 520 130
      "CDTFA harvest values 2020 H2. Size: 1. Tax assessment, not market."))
  /\ (CA.subset (Sample.ca_half_record 500 125
        "CDTFA harvest values 2020 H1. Size: 1. Tax assessment, not market.")
      = CA.subset (Sample.ca_half_record 520 130
        "CDTFA harvest values 2020 H2. Size: 1. Tax assessment, not market.")
      <-> CA.raw_year (Sample.ca_half_row 1 500)
          = CA.raw_year (Sample.ca_half_row 2 520)
          /\ CA.raw_half (Sample.ca_half_row 1 500)
             = CA.raw_half (Sample.ca_half_row 2 520)
          /\ CA.raw_timber_value_area (Sample.ca_half_row 1 500)
             = CA.raw_timber_value_area (Sample.ca_half_row 2 520)
          /\ ca_timber_type (Sample.ca_half_row 1 500)
             = ca_timber_type (Sample.ca_half_row 2 520)
          /\ CA.raw_size_code (Sample.ca_half_row 1 500)
             = CA.raw_size_code (Sample.ca_half_row 2 520)
          /\ CA.standardize_species
               <$> CA.raw_species (Sample.ca_half_row 1 500)
             = CA.standardize_species
                 <$> CA.raw_species (Sample.ca_half_row 2 520)).
Proof.
  split; [vm_compute; reflexivity|]. split; [vm_compute; reflexivity|].
  apply (ca_dedup_key_injective (Sample.ca_half_row 1 500)
           (Sample.ca_half_row 2 520));
    vm_compute; reflexivity.
Defined.

(** The year column of a parsed file with an empty year cell holds floats,
    and [notes] prints the year with its fractional part. *)
Example ca_float_year_notes :
  exists rec,
    CA.transform_to_unified Sample2.ca_float_year_rows = Done [rec]
    /\ year rec = 2020%Z
    /\ notes rec
       = Some "CDTFA harvest values 2020.0 H1. Size: 1. Tax assessment, not market.".
Proof. eexists. repeat split; vm_compute; reflexivity. Qed.

(** ** The transformed frame *)

(** X16.  When no row raises, the transformed frame has exactly one record
    for each row that is not skipped, in the order of the parsed file. *)
Theorem transform_in_file_order s df out :
  transform_to_unified s df = Done out ->
  Forall2 (fun row rec => assemble s row = Done (Some rec))
    (filter (fun row => skips s row = false) df) out.
Proof.
  rewrite transform_iterrows. revert out.
  induction df as [|row df IH]; intros out.
  - simpl. intros [= <-]. constructor.
  - rewrite iterrows_cons, filter_cons. unfold skips, kept.
    destruct (assemble s row) as [[rec|]|e] eqn:Hrow; [| |done];
      (destruct (iterrows (assemble s) df []) as [out'|e]; [|done]);
      intros [= <-]; simpl.
    + constructor; [done|]. by apply IH.
    + by apply IH.
Qed.

Lemma transform_in_file_order_witness :
  transform_to_unified mn_forest_resources Sample.mn_rows
  = Done Sample.mn_records
  /\ Forall2 (fun row rec => assemble mn_forest_resources row = Done (Some rec))
       (filter (fun row => skips mn_forest_resources row = false)
          Sample.mn_rows)
       Sample.mn_records.
Proof.
  split; [vm_compute; reflexivity|].
  apply (transform_in_file_order mn_forest_resources Sample.mn_rows).
  vm_compute; reflexivity.
Defined.

(** ** Key uniqueness in the CA run *)

Lemma ca_assembled_notes row rec :
  CA.assemble row = Done (Some rec) -> CA.notes_contain_CDTFA rec = true.
Proof. apply (assembled_replaced ca_cdtfa). discriminate. Qed.

(** X17.  The CA run writes a dataset without two rows of the same
    composite key and notes whenever the dataset it read had none. *)
Theorem ca_noted_key_uniqueness w w' existing :
  unified_csv w = Some existing ->
  NoDup (noted_key <$> existing) ->
  run CA.main w = (Done tt, w') ->
  exists out, unified_csv w' = Some out /\ NoDup (noted_key <$> out).
Proof.
  intros Hex Hnd
    (df & rows & existing' & Hraw & Hrows & _ & Hex' & Hck & ->)
    %(main_Done_inv ca_cdtfa).
  change (unified_csv w = Some existing') in Hex'.
  assert (existing' = existing) as -> by congruence.
  eexists. split; [done|].
  rewrite sort_values_perm, fmap_app. apply NoDup_app.
  split; [|split].
  - eapply sublist_NoDup; [exact Hnd|apply fmap_sublist, sublist_filter].
  - intros k (r1 & -> & [Hr1 _]%list_elem_of_filter)%list_elem_of_fmap
             (r2 & Hk & Hr2)%list_elem_of_fmap.
    apply Hr1. simpl.
    apply (batch_assembled ca_cdtfa df rows) in Hr2 as (row & _ & Hasm);
      [|done].
    apply ca_assembled_notes in Hasm.
    unfold CA.notes_contain_CDTFA in *.
    apply (f_equal snd) in Hk. simpl in Hk. by rewrite Hk.
  - apply (deduplicate_NoDup ca_cdtfa df rows Hrows).
Qed.

Lemma ca_noted_key_uniqueness_witness :
  unified_csv Sample.ca_world = Some Sample.ca_existing
  /\ NoDup (noted_key <$> Sample.ca_existing)
  /\ run CA.main Sample.ca_world
     = (Done tt, after_write Sample.ca_world Sample.ca_written)
  /\ exists out,
       unified_csv (after_write Sample.ca_world Sample.ca_written) = Some out
       /\ NoDup (noted_key <$> out).
Proof.
  assert (NoDup (noted_key <$> Sample.ca_existing)) as Hnd.
  { apply (bool_decide_unpack _). vm_compute. exact I. }
  split; [reflexivity|]. split; [exact Hnd|].
  split; [vm_compute; reflexivity|].
  apply (ca_noted_key_uniqueness Sample.ca_world _ Sample.ca_existing).
  - reflexivity.
  - exact Hnd.
  - vm_compute; reflexivity.
Defined.

(** ** Region and product labels *)

Lemma wv_assembled_labels row rec :
  WV.assemble row = Done (Some rec) ->
  exists label product,
    WV.raw_species row = Some label
    /\ WV.raw_product_type row = Some product
    /\ region rec = wv_standardize_region (WV.raw_region row)
    /\ product_type rec = WV.standardize_product product
    /\ species rec = WV.standardize_species label.
Proof.
  intros H. unfold WV.assemble, mbind, outcome_bind, py_int, py_str in H.
  repeat case_match; simplify_eq; by eexists _, _.
Qed.

Lemma mn_assembled_labels row rec :
  MN.assemble row = Done (Some rec) ->
  product_type rec = mn_standardize_product (MN.raw_product_type row)
  /\ species rec = MN.raw_species row.
Proof.
  intros H. unfold MN.assemble, mbind, outcome_bind, py_int in H.
  repeat case_match; simplify_eq; done.
Qed.

Lemma lower_ascii_idemp c :
  PyStr.lower_ascii (PyStr.lower_ascii c) = PyStr.lower_ascii c.
Proof. destruct c as [[] [] [] [] [] [] [] []]; vm_compute; reflexivity. Qed.

Lemma lower_ascii_not_upper c : is_upper (PyStr.lower_ascii c) = false.
Proof. destruct c as [[] [] [] [] [] [] [] []]; vm_compute; reflexivity. Qed.

Lemma lower_idemp label : PyStr.lower (PyStr.lower label) = PyStr.lower label.
Proof.
  unfold PyStr.lower. rewrite map_chars_compose.
  apply map_chars_ext, lower_ascii_idemp.
Qed.

(** A lower-cased label is neither "Stumpage" nor "Pulpwood". *)
Lemma lower_not_capitalised label c rest :
  is_upper c = true -> PyStr.lower label <> String c rest.
Proof.
  intros Hc. destruct label as [|a label]; [done|].
  simpl. intros [= Ha _].
  pose proof (lower_ascii_not_upper a) as Hlow. congruence.
Qed.

(** X18.  The region and product labels a WV record carries, and the
    product label an MN record carries, are fixed points of the relabelling
    that produced them: relabelling twice is relabelling once. *)
Theorem relabelling_idempotent (label : string) :
  wv_standardize_region (wv_standardize_region label)
  = wv_standardize_region label
  /\ WV.standardize_product (WV.standardize_product label)
     = WV.standardize_product label
  /\ mn_standardize_product (mn_standardize_product label)
     = mn_standardize_product label.
Proof.
  split; [|split].
  - unfold wv_standardize_region.
    destruct (WV.REGION_MAP !! label) as [v|] eqn:Hlook; simpl;
      [|by rewrite Hlook].
    apply elem_of_list_to_map_2 in Hlook.
    repeat (apply elem_of_cons in Hlook as [Hlook|Hlook];
            [injection Hlook as -> ->; vm_compute; reflexivity|]).
    by apply elem_of_nil in Hlook.
  - unfold WV.standardize_product.
    destruct (String.eqb_spec label "Stumpage") as [->|H1]; [done|].
    destruct (String.eqb_spec label "Pulpwood") as [->|H2]; [done|].
    destruct (String.eqb_spec (PyStr.lower label) "Stumpage") as [E|_];
      [by apply lower_not_capitalised in E|].
    destruct (String.eqb_spec (PyStr.lower label) "Pulpwood") as [E|_];
      [by apply lower_not_capitalised in E|].
    apply lower_idemp.
  - unfold mn_standardize_product.
    destruct (MN.PRODUCT_MAP !! label) as [v|] eqn:Hlook; simpl;
      [|by rewrite Hlook].
    apply elem_of_list_to_map_2 in Hlook.
    repeat (apply elem_of_cons in Hlook as [Hlook|Hlook];
            [injection Hlook as -> ->; vm_compute; reflexivity|]).
    by apply elem_of_nil in Hlook.
Qed.

(** ** The prices of a batch *)

(** X19.  No transformed record of the MN and WV scripts has price zero,
    and every transformed record of the WA_OR script has a positive
    price. *)
Theorem batch_prices_usable s df out rec :
  s <> ca_cdtfa ->
  transform_to_unified s df = Done out ->
  rec ∈ out ->
  PyNum.is_zero (price_avg rec) = false
  /\ (s = usfs_pnw_species -> PyNum.is_positive (price_avg rec) = true).
Proof.
  intros Hs Hout (row & _ & Hrow)%(elem_of_transform s df out); [|done].
  destruct (assembled_price s row rec Hrow) as [Hprice _].
  assert (assemble s row <> Done None) as Hkept by congruence.
  rewrite skipped_iff, Hprice in Hkept.
  destruct (PyNum.is_nan (price_avg rec)) eqn:Hnan;
    [exfalso; apply Hkept; by left|].
  destruct s; try done.
  - split; [|done].
    destruct (PyNum.is_zero (price_avg rec)); [|done].
    exfalso. apply Hkept. by right.
  - split; [|done].
    destruct (PyNum.is_zero (price_avg rec)); [|done].
    exfalso. apply Hkept. by right.
  - destruct (PyNum.is_nonpositive (price_avg rec)) eqn:Hle;
      [exfalso; apply Hkept; by right|].
    split; [|intros _; by apply is_positive_intro].
    destruct (PyNum.is_zero (price_avg rec)) eqn:Hz; [|done].
    apply is_zero_nonpositive in Hz. congruence.
Qed.

Lemma batch_prices_usable_witness :
  transform_to_unified usfs_pnw_species Sample2.usfs_rows
  = Done Sample2.usfs_records
  /\ PyNum.is_zero
       (price_avg (Sample2.usfs_record 2020 "larch"
                     "Pacific Northwest OR/WA" 80 20))
     = false
  /\ (usfs_pnw_species = usfs_pnw_species ->
      PyNum.is_positive
        (price_avg (Sample2.usfs_record 2020 "larch"
                      "Pacific Northwest OR/WA" 80 20))
      = true).
Proof.
  split; [vm_compute; reflexivity|].
  apply (batch_prices_usable usfs_pnw_species Sample2.usfs_rows
           Sample2.usfs_records).
  - discriminate.
  - vm_compute; reflexivity.
  - by left.
Defined.
